(** * Tic-tac-toe on bitboards: a shallow embedding of [main.py]

    The program keeps one integer per player; bit [i] of a player's integer
    says that the player holds cell [i] of the 3x3 board

<<
       0 | 1 | 2
       3 | 4 | 5
       6 | 7 | 8
>>

    Python integers are unbounded, so they are [Z] here, and the bit
    operators are [Z.lor], [Z.land] and [Z.shiftl].  The class [Game_Ops]
    is a record, its methods are functions of [self]; the front-end
    functions, which talk to the console and to the global instance, live
    in a state-and-exception monad over a [World]. *)

From Stdlib Require Import ZArith String Ascii DecimalString Lia Bool.
From stdpp Require Import base list strings.

Local Open Scope string_scope.
Local Open Scope list_scope.
Local Open Scope Z_scope.

(** ** Python values and exceptions *)

Inductive exn : Type :=
  | IndexError
  | ValueError
  | EOFError
  | SystemExit.

(** The result of running a piece of Python: a value, a raised exception,
    or [Diverge] when a bounded unfolding of a [while] loop was not long
    enough (the loops below are unfolded as often as their measure asks,
    and [Diverge] is then shown not to occur). *)
Inductive result (A : Type) : Type :=
  | Ret (a : A)
  | Raise (e : exn)
  | Diverge.

Arguments Ret {A} a.
Arguments Raise {A} e.
Arguments Diverge {A}.

Definition rbind {A B : Type} (r : result A) (k : A -> result B) : result B :=
  match r with
  | Ret a => k a
  | Raise e => Raise e
  | Diverge => Diverge
  end.

Declare Scope py_scope.
Delimit Scope py_scope with py.
Notation "x <- c ;; k" := (rbind c (fun x => k))
  (at level 100, c at next level, right associativity) : py_scope.

(** [l[i]]: Python counts a negative index from the end of the list. *)
Definition py_index {A : Type} (l : list A) (i : Z) : result nat :=
  let n := Z.of_nat (length l) in
  let k := if i <? 0 then i + n else i in
  if (k <? 0) || (n <=? k) then Raise IndexError else Ret (Z.to_nat k).

Definition py_getitem {A : Type} (l : list A) (i : Z) : result A :=
  (k <- py_index l i ;;
   match l !! k with
   | Some a => Ret a
   | None => Raise IndexError
   end)%py.

(** [l[i] = x] *)
Definition py_setitem {A : Type} (l : list A) (i : Z) (x : A) : result (list A) :=
  (k <- py_index l i ;; Ret (<[k := x]> l))%py.

(** [a << b] raises [ValueError] on a negative shift count. *)
Definition py_lshift (a b : Z) : result Z :=
  if b <? 0 then Raise ValueError else Ret (Z.shiftl a b).

(** [any(...)] over a generator whose elements may raise: the elements are
    evaluated from the left, and the first [True] or the first exception
    stops the iteration. *)
Fixpoint py_any (l : list (result bool)) : result bool :=
  match l with
  | [] => Ret false
  | x :: rest =>
      match x with
      | Ret true => Ret true
      | Ret false => py_any rest
      | Raise e => Raise e
      | Diverge => Diverge
      end
  end.

(** ** The class [Game_Ops] *)

Record Game_Ops : Type := mkGame_Ops {
  boardStates : list Z;
  playerCount : Z;
  turnCount : Z
}.

(** [Game_Ops.__init__] *)
Definition init : Game_Ops :=
  {| boardStates := [0; 0]; playerCount := 0; turnCount := 0 |}.

(** [Game_Ops.insert_index]: the right-hand side is evaluated first, then
    the item is stored. *)
Definition insert_index (self : Game_Ops) (insertIndex : Z) : result Game_Ops :=
  (old <- py_getitem (boardStates self) (playerCount self) ;;
   bit <- py_lshift 1 insertIndex ;;
   states <- py_setitem (boardStates self) (playerCount self) (Z.lor old bit) ;;
   Ret {| boardStates := states;
          playerCount := playerCount self;
          turnCount := turnCount self |})%py.

(** [Game_Ops.is_in_board_state] *)
Definition is_in_board_state (self : Game_Ops) (insertIndex : Z) : result bool :=
  py_any (map (fun boardState =>
                 (bit <- py_lshift 1 insertIndex ;;
                  Ret (negb (Z.land boardState bit =? 0)))%py)
              (boardStates self)).

Definition win_conditions : list Z := [7; 56; 448; 73; 146; 292; 273; 84].

(** [Game_Ops.is_win] *)
Definition is_win (self : Game_Ops) : result bool :=
  py_any (map (fun winNum =>
                 (state <- py_getitem (boardStates self) (playerCount self) ;;
                  Ret (Z.land state winNum =? winNum))%py)
              win_conditions).

(** [Game_Ops.update_player_count]; Python's [%] with a positive modulus is
    [Z.modulo]. *)
Definition update_player_count (self : Game_Ops) : Game_Ops :=
  {| boardStates := boardStates self;
     playerCount := (playerCount self + 1) mod 2;
     turnCount := turnCount self |}.

(** [Game_Ops.update_turn] *)
Definition update_turn (self : Game_Ops) (num : Z) : Game_Ops :=
  {| boardStates := boardStates self;
     playerCount := playerCount self;
     turnCount := turnCount self + num |}.

(** ** Built-in functions the front end uses *)

(** [str(n)] and [f'{n}'] for an integer. *)
Definition py_str (n : Z) : string := NilZero.string_of_int (Z.to_int n).

(** [int(s)] for a string of an optional minus sign and decimal digits,
    [ValueError] otherwise.  (Python's [int] also accepts surrounding white
    space, a plus sign and underscores; the program only converts strings
    it has found in the list ['0', ..., '8'].) *)
Definition py_int (s : string) : result Z :=
  match NilZero.int_of_string s with
  | Some d => Ret (Z.of_int d)
  | None => Raise ValueError
  end.

(** [range(a, b)] *)
Definition py_range (a b : Z) : list Z :=
  map (fun k => a + Z.of_nat k) (seq 0 (Z.to_nat (b - a))).

(** [x in l] for a list of strings. *)
Definition py_in (x : string) (l : list string) : bool :=
  existsb (String.eqb x) l.

(** The binary digits of a positive number, most significant first. *)
Fixpoint bin_digits (p : positive) (acc : string) : string :=
  match p with
  | xH => String "1" acc
  | xO q => bin_digits q (String "0" acc)
  | xI q => bin_digits q (String "1" acc)
  end.

(** [bin(x)] *)
Definition bin (x : Z) : string :=
  match x with
  | Z0 => "0b0"
  | Zpos p => "0b" +:+ bin_digits p ""
  | Zneg p => "-0b" +:+ bin_digits p ""
  end.

(** [s[n:]] *)
Fixpoint py_slice_from (n : nat) (s : string) : string :=
  match n, s with
  | O, _ => s
  | S _, "" => ""
  | S m, String _ rest => py_slice_from m rest
  end.

Fixpoint zeros (n : nat) : string :=
  match n with
  | O => ""
  | S m => String "0" (zeros m)
  end.

(** [s.zfill(width)]: pads with zeros on the left, after a leading sign. *)
Definition zfill (width : nat) (s : string) : string :=
  let n := String.length s in
  if (width <=? n)%nat then s
  else
    match s with
    | String c rest =>
        if (Ascii.eqb c "+" || Ascii.eqb c "-")%bool
        then String c (zeros (width - n) +:+ rest)
        else zeros (width - n) +:+ s
    | "" => zeros (width - n)
    end.

(** [enumerate(l)] *)
Fixpoint enumerate_from {A : Type} (k : Z) (l : list A) : list (Z * A) :=
  match l with
  | [] => []
  | x :: rest => (k, x) :: enumerate_from (k + 1) rest
  end.

Definition enumerate {A : Type} (l : list A) : list (Z * A) := enumerate_from 0 l.

(** A [for] loop whose body updates a value and may raise. *)
Fixpoint py_for {A S : Type} (l : list A) (body : A -> S -> result S) (s : S)
  : result S :=
  match l with
  | [] => Ret s
  | x :: rest => (s' <- body x s ;; py_for rest body s')%py
  end.

Definition is_digit (c : ascii) : bool :=
  let n := Z.of_N (N_of_ascii c) in (48 <=? n) && (n <=? 57).

Definition digit_value (c : ascii) : Z := Z.of_N (N_of_ascii c) - 48.

(** [template.format( *args)] for a template whose replacement fields are
    all of the form [{k}] with [k] a decimal index, which is how
    [boardGraphic] is written.  [field] is the index read so far when the
    scan is inside a pair of braces. *)
Fixpoint format_scan (s : string) (field : option Z) (args : list string)
  : result string :=
  match s with
  | "" =>
      match field with
      | None => Ret ""
      | Some _ => Raise ValueError
      end
  | String c rest =>
      match field with
      | None =>
          if Ascii.eqb c "{" then format_scan rest (Some 0) args
          else if Ascii.eqb c "}" then Raise ValueError
          else (out <- format_scan rest None args ;; Ret (String c out))%py
      | Some k =>
          if Ascii.eqb c "}" then
            (arg <- py_getitem args k ;;
             out <- format_scan rest None args ;;
             Ret (arg +:+ out))%py
          else if is_digit c then format_scan rest (Some (10 * k + digit_value c)) args
          else Raise ValueError
      end
  end.

Definition py_format (template : string) (args : list string) : result string :=
  format_scan template None args.

(** ** The console and the global instance *)

Inductive event : Type :=
  | Clear                 (* [os.system('clear')] *)
  | Print (s : string)    (* [print(s)] *)
  | Prompt (s : string).  (* the prompt [input(s)] writes *)

(** [instance] is the global [Game_Ops] object, [stdin] the lines still to
    be read, [stdout] what has been written so far.  [history] is a ghost
    log: every value the instance has held, oldest first; the program never
    reads it, it is there to state properties of all intermediate states. *)
Record World : Type := mkWorld {
  instance : Game_Ops;
  stdin : list string;
  stdout : list event;
  history : list Game_Ops
}.

Definition M (A : Type) : Type := World -> World * result A.

Definition mret {A : Type} (a : A) : M A := fun w => (w, Ret a).

Definition mbind {A B : Type} (m : M A) (k : A -> M B) : M B :=
  fun w =>
    match m w with
    | (w', Ret a) => k a w'
    | (w', Raise e) => (w', Raise e)
    | (w', Diverge) => (w', Diverge)
    end.

Declare Scope io_scope.
Delimit Scope io_scope with io.
Notation "x <- c ;; k" := (mbind c (fun x => k))
  (at level 100, c at next level, right associativity) : io_scope.
Notation "c ;; k" := (mbind c (fun _ => k))
  (at level 100, right associativity) : io_scope.

Definition lift {A : Type} (r : result A) : M A := fun w => (w, r).

Definition raise {A : Type} (e : exn) : M A := lift (Raise e).

(** Reading the global instance, and calling a method that mutates it. *)
Definition get_instance : M Game_Ops := fun w => (w, Ret (instance w)).

Definition set_instance (g : Game_Ops) : M unit :=
  fun w => ({| instance := g; stdin := stdin w; stdout := stdout w;
               history := history w ++ [g] |}, Ret tt).

Definition call {A : Type} (method : Game_Ops -> result A) : M A :=
  (g <- get_instance ;; lift (method g))%io.

Definition call_mut (method : Game_Ops -> result Game_Ops) : M unit :=
  (g <- call method ;; set_instance g)%io.

Definition emit (e : event) : M unit :=
  fun w => ({| instance := instance w; stdin := stdin w;
               stdout := stdout w ++ [e]; history := history w |}, Ret tt).

Definition print (s : string) : M unit := emit (Print s).

(** [input(prompt)]: writes the prompt, then reads a line; [EOFError] at
    the end of the input. *)
Definition input (prompt : string) : M string :=
  (emit (Prompt prompt) ;;
   fun w =>
     match stdin w with
     | [] => (w, Raise EOFError)
     | line :: rest =>
         ({| instance := instance w; stdin := rest; stdout := stdout w;
             history := history w |}, Ret line)
     end)%io.

(** [exit()] *)
Definition exit : M unit := raise SystemExit.

(** [while True: ...] with a body that either returns from the function
    ([Some a]) or goes round again ([None]). *)
Fixpoint while_true {A : Type} (fuel : nat) (body : M (option A)) : M A :=
  match fuel with
  | O => lift Diverge
  | S fuel' =>
      (r <- body ;;
       match r with
       | Some a => mret a
       | None => while_true fuel' body
       end)%io
  end.

(** [while cond: body] *)
Fixpoint while_do (fuel : nat) (cond : M bool) (body : M unit) : M unit :=
  (c <- cond ;;
   if c then
     match fuel with
     | O => lift Diverge
     | S fuel' => (body ;; while_do fuel' cond body)
     end
   else mret tt)%io.

(** ** The front end *)

(** [frontend_pre_game] *)
Definition frontend_pre_game : M (list string) :=
  (s0 <- input "Player 0 symbol: " ;;
   s1 <- input "Player 1 symbol: " ;;
   mret [s0; s1])%io.

(** [clearScreen] *)
Definition clearScreen : M unit := emit Clear.

Definition nl : string := String (ascii_of_nat 10) "".

(** The playfield; strings are sequences of bytes here, so the superscript
    digits of the source appear in their UTF-8 encoding. *)
Definition boardGraphic : string :=
  nl +:+ "⁰  |¹  |²  " +:+ nl +:+ " {0} | {1} | {2} " +:+ nl +:+ "___|___|___" +:+ nl +:+
  "³  |⁴  |⁵  " +:+ nl +:+ " {3} | {4} | {5} " +:+ nl +:+ "___|___|___" +:+ nl +:+
  "⁶  |⁷  |⁸  " +:+ nl +:+ " {6} | {7} | {8} " +:+ nl +:+ "   |   |   " +:+ nl.

(** [bin(state)[2:].zfill(9)] *)
Definition bin_str (state : Z) : string := zfill 9 (py_slice_from 2 (bin state)).

(** [[8 - i for i, v in enumerate(binStr) if v == '1']] *)
Definition one_indices (binStr : string) : list Z :=
  map (fun iv : Z * ascii => 8 - fst iv)
      (List.filter (fun iv : Z * ascii => Ascii.eqb (snd iv) "1")
                   (enumerate (list_ascii_of_string binStr))).

(** The two nested [for] loops of [frontend_draw_board]. *)
Definition fill_board (symbols : list string) (boardIndices : list (list Z))
    (boardData : list string) : result (list string) :=
  py_for (enumerate boardIndices)
         (fun np data =>
            py_for (snd np)
                   (fun i data' =>
                      (sym <- py_getitem symbols (fst np) ;;
                       py_setitem data' i sym)%py)
                   data)
         boardData.

(** What [frontend_draw_board] computes from the two board-states before
    it prints. *)
Definition board_data (symbols : list string) (states : list Z)
  : result (list string) :=
  (state0 <- py_getitem states 0 ;;
   state1 <- py_getitem states 1 ;;
   let boardIndices := [one_indices (bin_str state0); one_indices (bin_str state1)] in
   fill_board symbols boardIndices (replicate 9 " "))%py.

(** [frontend_draw_board] *)
Definition frontend_draw_board (symbols : list string) : M unit :=
  (clearScreen ;;
   boardData <- call (fun g => board_data symbols (boardStates g)) ;;
   text <- lift (py_format boardGraphic boardData) ;;
   print text)%io.

Definition msg_range : string := "Please choose a number between 0 and 8.".
Definition msg_taken : string :=
  "There is already a symbol there. Please input an index corresponding to a free location.".

(** One round of the [while True] loop of [frontend_ask_input]: [Some]
    index when the function returns, [None] when it asks again. *)
Definition ask_once (symbols : list string) : M (option Z) :=
  (sym <- call (fun g => py_getitem symbols (playerCount g)) ;;
   inputIndex <- input ("Player " +:+ sym +:+ "; input location index: ") ;;
   if negb (py_in inputIndex (map py_str (py_range 0 9))) then
     (print msg_range ;; mret None)
   else
     (insertIndex <- lift (py_int inputIndex) ;;
      taken <- call (fun g => is_in_board_state g insertIndex) ;;
      if taken then (print msg_taken ;; mret None)
      else mret (Some insertIndex)))%io.

(** [frontend_ask_input]; every round reads one line, so one round more
    than there are lines left is enough. *)
Definition frontend_ask_input (symbols : list string) : M Z :=
  fun w => while_true (S (length (stdin w))) (ask_once symbols) w.

(** The body of the [while] loop of [main]. *)
Definition turn (symbols : list string) : M unit :=
  (frontend_draw_board symbols ;;
   insertIndex <- frontend_ask_input symbols ;;
   call_mut (fun g => insert_index g insertIndex) ;;
   won <- call is_win ;;
   if won then
     (frontend_draw_board symbols ;;
      sym <- call (fun g => py_getitem symbols (playerCount g)) ;;
      print ("Player " +:+ sym +:+ " won!") ;;
      exit)
   else
     (call_mut (fun g => Ret (update_player_count g)) ;;
      call_mut (fun g => Ret (update_turn g 1))))%io.

Definition turns_left (g : Game_Ops) : nat := Z.to_nat (9 - turnCount g).

(** The [while Game_Ops.turnCount < 9] loop; every round adds one to the
    turn counter, so [turns_left] rounds are enough. *)
Definition game_loop (symbols : list string) : M unit :=
  fun w =>
    while_do (turns_left (instance w))
             (call (fun g => Ret (turnCount g <? 9)))
             (turn symbols) w.

(** [main] *)
Definition main : M unit :=
  (frontend_draw_board [" "; " "] ;;
   symbols <- frontend_pre_game ;;
   game_loop symbols ;;
   frontend_draw_board symbols ;;
   print "It's a draw!")%io.

(** The program: the instance is created, then [main] runs. *)
Definition start (lines : list string) : World :=
  {| instance := init; stdin := lines; stdout := []; history := [init] |}.

Definition run (lines : list string) : World * result unit := main (start lines).

(** ** Vocabulary for the statements *)

(** A well-formed instance: one board-state per player, and the player
    counter names one of them. *)
Definition well_formed (g : Game_Ops) : Prop :=
  length (boardStates g) = 2%nat /\ (playerCount g = 0 \/ playerCount g = 1).

(** The board-state of player [p]. *)
Definition state_of (g : Game_Ops) (p : Z) : Z :=
  nth (Z.to_nat p) (boardStates g) 0.

(** [w] is a submask of [m]: every bit of [w] is set in [m]. *)
Definition submask (w m : Z) : Prop :=
  forall i, Z.testbit w i = true -> Z.testbit m i = true.

(** The board geometry: the cell in row [r] and column [c], and the mask
    of a set of cells. *)
Definition cell (r c : Z) : Z := 3 * r + c.

Definition line_mask (cells : list Z) : Z :=
  fold_right (fun c acc => Z.lor (Z.shiftl 1 c) acc) 0 cells.

Definition rows : list (list Z) :=
  map (fun r => map (fun c => cell r c) [0; 1; 2]) [0; 1; 2].

Definition columns : list (list Z) :=
  map (fun c => map (fun r => cell r c) [0; 1; 2]) [0; 1; 2].

Definition diagonals : list (list Z) :=
  [map (fun k => cell k k) [0; 1; 2]; map (fun k => cell k (2 - k)) [0; 1; 2]].

Definition nine_bit (m : Z) : Prop := 0 <= m < 512.

(** The number of cells 0..8 marked in a board-state, and the number of
    marks on the board. *)
Definition popcount9 (m : Z) : Z :=
  fold_right (fun i acc => Z.b2z (Z.testbit m i) + acc) 0 (py_range 0 9).

Definition marks (g : Game_Ops) : Z :=
  popcount9 (state_of g 0) + popcount9 (state_of g 1).

Definition disjoint (g : Game_Ops) : Prop :=
  Z.land (state_of g 0) (state_of g 1) = 0.

(** No winning line is covered by [m]. *)
Definition no_win (m : Z) : Prop :=
  forall w, In w win_conditions -> Z.land m w <> w.

(** The cells in the order in which [one_indices] meets them. *)
Definition cells_desc : list Z := [8; 7; 6; 5; 4; 3; 2; 1; 0].

(** The playfield with the nine cell texts written out. *)
Definition slot (data : list string) (k : nat) : string := nth k data "".

Definition render (data : list string) : string :=
  nl +:+ "⁰  |¹  |²  " +:+ nl +:+
  " " +:+ slot data 0 +:+ " | " +:+ slot data 1 +:+ " | " +:+ slot data 2 +:+ " " +:+ nl +:+
  "___|___|___" +:+ nl +:+
  "³  |⁴  |⁵  " +:+ nl +:+
  " " +:+ slot data 3 +:+ " | " +:+ slot data 4 +:+ " | " +:+ slot data 5 +:+ " " +:+ nl +:+
  "___|___|___" +:+ nl +:+
  "⁶  |⁷  |⁸  " +:+ nl +:+
  " " +:+ slot data 6 +:+ " | " +:+ slot data 7 +:+ " | " +:+ slot data 8 +:+ " " +:+ nl +:+
  "   |   |   " +:+ nl.

(** Appending to what has been written. *)
Definition wrote (w : World) (es : list event) : World :=
  {| instance := instance w; stdin := stdin w; stdout := stdout w ++ es;
     history := history w |}.

(** Replacing the lines still to be read. *)
Definition reading (w : World) (lines : list string) : World :=
  {| instance := instance w; stdin := lines; stdout := stdout w;
     history := history w |}.

Definition ask_prompt (sym : string) : string :=
  "Player " +:+ sym +:+ "; input location index: ".

(** Why [frontend_ask_input] turns a line down, and with which message:
    the line is not the numeral of a cell, or it is and the cell is taken. *)
Inductive refusal (g : Game_Ops) : string -> string -> Prop :=
  | refuse_no_cell (line : string) :
      (forall i, 0 <= i <= 8 -> line <> py_str i) ->
      refusal g line msg_range
  | refuse_taken (i : Z) :
      0 <= i <= 8 ->
      Z.testbit (state_of g 0) i = true \/ Z.testbit (state_of g 1) i = true ->
      refusal g (py_str i) msg_taken.

(** What is written for a list of refused lines (each paired with its
    message): the prompt, then the message. *)
Definition transcript (prompt : string) (refused : list (string * string))
  : list event :=
  flat_map (fun lm => [Prompt prompt; Print (snd lm)]) refused.

(** The instance between two turns: two disjoint nine-bit board-states,
    a player index in {0,1}, a turn counter that counts the marks, and no
    winning line on the board. *)
Definition at_rest (g : Game_Ops) : Prop :=
  well_formed g /\
  nine_bit (state_of g 0) /\ nine_bit (state_of g 1) /\
  disjoint g /\
  turnCount g = marks g /\ turnCount g <= 9 /\
  no_win (state_of g 0) /\ no_win (state_of g 1).

(** What holds of every value the instance ever takes. *)
Definition sound (g : Game_Ops) : Prop :=
  length (boardStates g) = 2%nat /\
  disjoint g /\
  0 <= turnCount g <= 9 /\
  (marks g = turnCount g \/ marks g = turnCount g + 1).

(** The world after the instance has been given the value [g]. *)
Definition becomes (w : World) (g : Game_Ops) : World :=
  {| instance := g; stdin := stdin w; stdout := stdout w;
     history := history w ++ [g] |}.

(** The log is faithful: it starts with the initial instance, it ends with
    the current one, and every entry is sound. *)
Definition logged (w : World) : Prop :=
  Forall sound (history w) /\
  last (history w) = Some (instance w) /\
  head (history w) = Some init.

(** How the game loop can end: the board is full with no winner, the last
    placement won, or the input ran out while a move was asked for. *)
Inductive ending (w' : World) : result unit -> Prop :=
  | ended_full :
      at_rest (instance w') -> turnCount (instance w') = 9 ->
      ending w' (Ret tt)
  | ended_won (sym : string) :
      sound (instance w') ->
      is_win (instance w') = Ret true ->
      marks (instance w') = turnCount (instance w') + 1 ->
      turnCount (instance w') < 9 ->
      last (stdout w') = Some (Print ("Player " +:+ sym +:+ " won!")) ->
      ending w' (Raise SystemExit)
  | ended_eof (prompt : string) :
      at_rest (instance w') -> turnCount (instance w') < 9 ->
      last (stdout w') = Some (Prompt prompt) ->
      ending w' (Raise EOFError).

Definition announced_draw (w : World) : Prop :=
  last (stdout w) = Some (Print "It's a draw!").

(** What a call of [frontend_ask_input] amounts to: a list of refused
    lines, then either the end of the input or the numeral of a free cell. *)
Definition ask_outcome (symbols : list string) (sym : string) (w : World)
    (refused : list (string * string)) (w' : World) (r : result Z) : Prop :=
  frontend_ask_input symbols w = (w', r) /\
  instance w' = instance w /\
  history w' = history w /\
  Forall (fun lm => refusal (instance w) (fst lm) (snd lm)) refused /\
  stdout w' = stdout w ++ transcript (ask_prompt sym) refused ++ [Prompt (ask_prompt sym)] /\
  ((r = Raise EOFError /\ stdin w = map fst refused /\ stdin w' = []) \/
   (exists i, r = Ret i /\ 0 <= i <= 8 /\
      is_in_board_state (instance w) i = Ret false /\
      Z.testbit (state_of (instance w) 0) i = false /\
      Z.testbit (state_of (instance w) 1) i = false /\
      stdin w = map fst refused ++ py_str i :: stdin w')).

(** ** The singleton constructor

    [Game_Ops.__new__] keeps the one object of the class in the class
    attribute [_instance].  Objects are addresses into [objects]; an object
    has no attributes ([None]) until [__init__] has run on it. *)
Record Runtime : Type := mkRuntime {
  cls_instance : option nat;
  objects : list (option Game_Ops);
  console : list event
}.

Definition msg_exists : string := "Instance of 'Game_Ops' already exists.".

(** [Game_Ops.__new__] *)
Definition Game_Ops_new (rt : Runtime) : Runtime * nat :=
  match cls_instance rt with
  | None =>
      let a := length (objects rt) in
      ({| cls_instance := Some a; objects := objects rt ++ [None];
          console := console rt |}, a)
  | Some a =>
      ({| cls_instance := Some a; objects := objects rt;
          console := console rt ++ [Print msg_exists] |}, a)
  end.

(** [Game_Ops.__init__] on the object at address [a]. *)
Definition Game_Ops_init (a : nat) (rt : Runtime) : Runtime :=
  {| cls_instance := cls_instance rt;
     objects := <[a := Some init]> (objects rt);
     console := console rt |}.

(** The call [Game_Ops()]: [__new__], then [__init__] on what it returned. *)
Definition Game_Ops_call (rt : Runtime) : Runtime * nat :=
  let (rt', a) := Game_Ops_new rt in (Game_Ops_init a rt', a).

(** [n] calls in a row, with the objects they returned. *)
Fixpoint Game_Ops_calls (n : nat) (rt : Runtime) : Runtime * list nat :=
  match n with
  | O => (rt, [])
  | S m =>
      let (rt', a) := Game_Ops_call rt in
      let (rt'', rest) := Game_Ops_calls m rt' in
      (rt'', a :: rest)
  end.

Definition fresh_runtime : Runtime :=
  {| cls_instance := None; objects := []; console := [] |}.

(** ** More vocabulary *)

(** Placing marks at a list of cells, one [insert_index] after the other. *)
Definition place_all (cells : list Z) (g : Game_Ops) : result Game_Ops :=
  py_for cells (fun i g' => insert_index g' i) g.

(** Player 0 moves first and the players take turns: the player index is
    the parity of the turn counter, and the marks are shared out
    accordingly. *)
Definition alternating (g : Game_Ops) : Prop :=
  playerCount g = turnCount g mod 2 /\
  popcount9 (state_of g 0) = (turnCount g + 1) / 2 /\
  popcount9 (state_of g 1) = turnCount g / 2.

(** Every cell of the board is taken. *)
Definition board_full (g : Game_Ops) : Prop :=
  forall i, 0 <= i <= 8 ->
    Z.testbit (state_of g 0) i = true \/ Z.testbit (state_of g 1) i = true.

(** ** The methods of [Game_Ops] *)

(** The worked examples of the class docstring. *)

Example docstring_insert :
  insert_index {| boardStates := [20; 40]; playerCount := 0; turnCount := 4 |} 6
  = Ret {| boardStates := [84; 40]; playerCount := 0; turnCount := 4 |}.
Proof. reflexivity. Qed.

Example docstring_occupied :
  is_in_board_state {| boardStates := [20; 40]; playerCount := 0; turnCount := 4 |} 4
  = Ret true.
Proof. reflexivity. Qed.

Example docstring_no_win :
  is_win {| boardStates := [20; 40]; playerCount := 0; turnCount := 4 |} = Ret false.
Proof. reflexivity. Qed.

Example docstring_win :
  is_win {| boardStates := [340; 40]; playerCount := 0; turnCount := 4 |} = Ret true.
Proof. reflexivity. Qed.

Example docstring_binary : bin_str 20 = "000010100" /\ bin_str 40 = "000101000".
Proof. split; reflexivity. Qed.

Example docstring_board :
  board_data ["X"; "O"] [20; 40] = Ret [" "; " "; "X"; "O"; "X"; "O"; " "; " "; " "].
Proof. reflexivity. Qed.

Lemma py_any_total (f : Z -> bool) (l : list Z) :
  py_any (map (fun x => Ret (f x)) l) = Ret (existsb f l).
Proof.
  induction l as [|x l IH]; simpl; [reflexivity|].
  destruct (f x); simpl; [reflexivity | exact IH].
Qed.

Lemma py_getitem_two {A : Type} (a b : A) (p : Z) :
  p = 0 \/ p = 1 ->
  py_getitem [a; b] p = Ret (if p =? 0 then a else b).
Proof. intros [-> | ->]; reflexivity. Qed.

Lemma py_setitem_two {A : Type} (a b x : A) (p : Z) :
  p = 0 \/ p = 1 ->
  py_setitem [a; b] p x = Ret (if p =? 0 then [x; b] else [a; x]).
Proof. intros [-> | ->]; reflexivity. Qed.

Lemma length_two {A : Type} (l : list A) :
  length l = 2%nat -> exists a b, l = [a; b].
Proof.
  destruct l as [|a [|b [|c l]]]; simpl; intros H; try discriminate; eauto.
Qed.

Lemma py_lshift_nonneg (i : Z) : 0 <= i -> py_lshift 1 i = Ret (Z.shiftl 1 i).
Proof.
  intros Hi. unfold py_lshift.
  destruct (Z.ltb_spec i 0); [lia | reflexivity].
Qed.

Lemma testbit_bit (i j : Z) :
  0 <= i -> Z.testbit (Z.shiftl 1 i) j = (j =? i).
Proof.
  intros Hi. rewrite Z.shiftl_1_l.
  rewrite Z.pow2_bits_eqb by assumption.
  apply Z.eqb_sym.
Qed.

Lemma land_bit (m i : Z) :
  0 <= i -> (Z.land m (Z.shiftl 1 i) =? 0) = negb (Z.testbit m i).
Proof.
  intros Hi.
  destruct (Z.testbit m i) eqn:Hb; simpl.
  - apply Z.eqb_neq. intros H0.
    assert (Hc : Z.testbit (Z.land m (Z.shiftl 1 i)) i = true).
    { rewrite Z.land_spec, Hb, testbit_bit, Z.eqb_refl by assumption. reflexivity. }
    rewrite H0, Z.bits_0 in Hc. discriminate.
  - apply Z.eqb_eq. apply Z.bits_inj'. intros j Hj.
    rewrite Z.land_spec, Z.bits_0, testbit_bit by assumption.
    destruct (Z.eqb_spec j i) as [-> | Hne].
    + rewrite Hb. reflexivity.
    + apply andb_false_r.
Qed.

Lemma land_submask (m w : Z) : Z.land m w = w <-> submask w m.
Proof.
  unfold submask. split.
  - intros H i Hi. rewrite <- H in Hi.
    rewrite Z.land_spec in Hi. apply andb_true_iff in Hi. tauto.
  - intros H. apply Z.bits_inj. intros i.
    rewrite Z.land_spec.
    destruct (Z.testbit w i) eqn:Hw.
    + rewrite (H i Hw). reflexivity.
    + apply andb_false_r.
Qed.

(** [is_win] reads nothing but the current player's board-state. *)
Lemma is_win_state (g : Game_Ops) (m : Z) :
  py_getitem (boardStates g) (playerCount g) = Ret m ->
  is_win g = Ret (existsb (fun w => Z.land m w =? w) win_conditions).
Proof.
  intros H. unfold is_win. rewrite H. simpl rbind.
  apply (py_any_total (fun w => Z.land m w =? w)).
Qed.

Lemma existsb_pointwise {A : Type} (f h : A -> bool) (l : list A) :
  (forall x, f x = h x) -> existsb f l = existsb h l.
Proof.
  intros E. induction l as [|x l IH]; simpl; [reflexivity|].
  rewrite E, IH. reflexivity.
Qed.

Lemma is_in_board_state_bits (g : Game_Ops) (i : Z) :
  0 <= i ->
  is_in_board_state g i = Ret (existsb (fun m => Z.testbit m i) (boardStates g)).
Proof.
  intros Hi. unfold is_in_board_state. rewrite py_lshift_nonneg by assumption.
  simpl rbind.
  rewrite (py_any_total (fun m => negb (Z.land m (Z.shiftl 1 i) =? 0))).
  f_equal. apply existsb_pointwise. intros m.
  rewrite land_bit by assumption. apply negb_involutive.
Qed.

Lemma insert_index_two (m0 m1 p tc i : Z) :
  p = 0 \/ p = 1 -> 0 <= i ->
  insert_index {| boardStates := [m0; m1]; playerCount := p; turnCount := tc |} i =
  Ret {| boardStates := if p =? 0 then [Z.lor m0 (Z.shiftl 1 i); m1]
                        else [m0; Z.lor m1 (Z.shiftl 1 i)];
         playerCount := p; turnCount := tc |}.
Proof.
  intros Hp Hi. unfold insert_index. simpl boardStates. simpl playerCount.
  rewrite py_getitem_two, py_lshift_nonneg by assumption. simpl rbind.
  rewrite py_setitem_two by assumption. simpl rbind.
  destruct Hp as [-> | ->]; reflexivity.
Qed.

Lemma state_of_0 (a b p tc : Z) :
  state_of {| boardStates := [a; b]; playerCount := p; turnCount := tc |} 0 = a.
Proof. reflexivity. Qed.

Lemma state_of_1 (a b p tc : Z) :
  state_of {| boardStates := [a; b]; playerCount := p; turnCount := tc |} 1 = b.
Proof. reflexivity. Qed.

Ltac two_players :=
  change (1 - 0) with 1; change (1 - 1) with 0;
  change (0 =? 0) with true; change (1 =? 0) with false; cbv iota;
  rewrite ?state_of_0, ?state_of_1.

Lemma well_formed_inv (g : Game_Ops) :
  well_formed g ->
  exists m0 m1 p tc,
    g = {| boardStates := [m0; m1]; playerCount := p; turnCount := tc |} /\
    (p = 0 \/ p = 1).
Proof.
  intros [Hlen Hp]. destruct g as [bs p tc]. simpl in *.
  destruct (length_two bs Hlen) as (m0 & m1 & ->). eauto 6.
Qed.

Lemma line_mask_bits (cells : list Z) (i : Z) :
  Forall (fun c => 0 <= c) cells ->
  Z.testbit (line_mask cells) i = existsb (Z.eqb i) cells.
Proof.
  induction 1 as [|c cells Hc _ IH]; simpl.
  - apply Z.bits_0.
  - rewrite Z.lor_spec, testbit_bit, IH by assumption. reflexivity.
Qed.

Lemma lines_nonneg (line : list Z) :
  In line (rows ++ columns ++ diagonals) -> Forall (fun c => 0 <= c) line.
Proof.
  change (rows ++ columns ++ diagonals)
    with [[0; 1; 2]; [3; 4; 5]; [6; 7; 8]; [0; 3; 6]; [1; 4; 7]; [2; 5; 8];
          [0; 4; 8]; [2; 4; 6]].
  intros H. simpl in H.
  repeat (destruct H as [<- | H]; [repeat constructor; lia|]).
  contradiction.
Qed.

(** C1: for a current player p in {0,1}, [is_win] returns a boolean that is
    true exactly when the current player's board-state AND-ed with one of
    the eight win conditions gives that win condition back, that is when it
    contains one of them as a submask; the eight numbers are the masks of
    the three rows, the three columns and the two diagonals of the board in
    the row-major numbering 0..8, and each has exactly the bits of the cells
    of its line. *)
Theorem is_win_iff_covers_line (m0 m1 p tc : Z) :
  p = 0 \/ p = 1 ->
  let g := {| boardStates := [m0; m1]; playerCount := p; turnCount := tc |} in
  (exists b, is_win g = Ret b /\
     (b = true <-> exists w, In w win_conditions /\ Z.land (state_of g p) w = w) /\
     (b = true <-> exists w, In w win_conditions /\ submask w (state_of g p))) /\
  win_conditions = [7; 56; 448; 73; 146; 292; 273; 84] /\
  win_conditions = map line_mask (rows ++ columns ++ diagonals) /\
  rows = [[0; 1; 2]; [3; 4; 5]; [6; 7; 8]] /\
  columns = [[0; 3; 6]; [1; 4; 7]; [2; 5; 8]] /\
  diagonals = [[0; 4; 8]; [2; 4; 6]] /\
  (forall line i, In line (rows ++ columns ++ diagonals) ->
     (Z.testbit (line_mask line) i = true <-> In i line)).
Proof.
  intros Hp g.
  assert (Hget : py_getitem (boardStates g) (playerCount g) = Ret (state_of g p)).
  { subst g. simpl. rewrite py_getitem_two by assumption.
    destruct Hp as [-> | ->]; reflexivity. }
  assert (Hex : forall m, existsb (fun w => Z.land m w =? w) win_conditions = true <->
                          exists w, In w win_conditions /\ Z.land m w = w).
  { intros m. rewrite existsb_exists. split; intros (w & Hin & Hw); exists w; split;
      try assumption; [apply Z.eqb_eq in Hw | apply Z.eqb_eq]; assumption. }
  split; [|repeat split; try reflexivity].
  - exists (existsb (fun w => Z.land (state_of g p) w =? w) win_conditions).
    split; [apply is_win_state; exact Hget|]. split.
    + apply Hex.
    + rewrite Hex. split; intros (w & Hin & Hw); exists w; split; try assumption;
        apply land_submask; assumption.
  - intros Hb. rewrite line_mask_bits in Hb.
    + apply existsb_exists in Hb. destruct Hb as (c & Hc & Hic).
      apply Z.eqb_eq in Hic. subst c. exact Hc.
    + apply lines_nonneg. assumption.
  - intros Hi. rewrite line_mask_bits.
    + apply existsb_exists. exists i. split; [assumption | apply Z.eqb_refl].
    + apply lines_nonneg. assumption.
Qed.

Lemma is_win_iff_covers_line_witness :
  exists b,
    is_win {| boardStates := [84; 3]; playerCount := 0; turnCount := 5 |} = Ret b /\
    (b = true <-> exists w, In w win_conditions /\ Z.land 84 w = w).
Proof.
  destruct (is_win_iff_covers_line 84 3 0 5 (or_introl eq_refl))
    as [(b & Hb & Hland & _) _].
  exists b. split; [exact Hb | exact Hland].
Defined.

(** C9: two instances with the same player index p in {0,1} and the same
    board-state for player p give the same [is_win], whatever the other
    player's board-state and the turn counter are; and that answer is a
    boolean computed from player p's board-state alone. *)
Theorem is_win_ignores_opponent (p tc1 tc2 a0 a1 b0 b1 : Z) :
  (p = 0 /\ a0 = b0) \/ (p = 1 /\ a1 = b1) ->
  let g1 := {| boardStates := [a0; a1]; playerCount := p; turnCount := tc1 |} in
  let g2 := {| boardStates := [b0; b1]; playerCount := p; turnCount := tc2 |} in
  is_win g1 = is_win g2 /\
  is_win g1 = Ret (existsb (fun w => Z.land (state_of g1 p) w =? w) win_conditions).
Proof.
  intros H g1 g2. subst g1 g2.
  destruct H as [[-> ->] | [-> ->]]; split;
    repeat (erewrite is_win_state by reflexivity); reflexivity.
Qed.

Lemma is_win_ignores_opponent_witness :
  is_win {| boardStates := [7; 0]; playerCount := 1; turnCount := 3 |} =
  is_win {| boardStates := [56; 0]; playerCount := 1; turnCount := 4 |}.
Proof.
  exact (proj1 (is_win_ignores_opponent 1 3 4 7 0 56 0 (or_intror (conj eq_refl eq_refl)))).
Defined.

(** C7: from the initial instance (player 0, both board-states 0), three
    calls [insert_index(0)], [insert_index(1)], [insert_index(2)] leave
    player 0's board-state at 7 and [is_win] then returns true; the same
    happens in a game in which player 1 answers at cells 3 and 4. *)
Theorem top_row_wins :
  (g1 <- insert_index init 0 ;;
   g2 <- insert_index g1 1 ;;
   g3 <- insert_index g2 2 ;;
   won <- is_win g3 ;;
   Ret (playerCount g3, state_of g3 0, state_of g3 1, won))%py
  = Ret (0, 7, 0, true) /\
  (let (w, r) := run ["X"; "O"; "0"; "3"; "1"; "4"; "2"] in
   r = Raise SystemExit /\ playerCount (instance w) = 0 /\
   state_of (instance w) 0 = 7 /\ is_win (instance w) = Ret true).
Proof. split; vm_compute; repeat split; reflexivity. Qed.

(** C10: on a well-formed instance and for every index i >= 0,
    [insert_index(i)] returns normally and changes nothing but the current
    player's board-state: player index, turn counter and the other player's
    board-state are as before, and the current player's new board-state is
    the old one OR-ed with [1 << i], so bit j is set afterwards exactly
    when it was set before or j = i, and no bit is cleared. *)
Theorem insert_index_frame (g : Game_Ops) (i : Z) :
  well_formed g -> 0 <= i ->
  exists g', insert_index g i = Ret g' /\
    playerCount g' = playerCount g /\
    turnCount g' = turnCount g /\
    length (boardStates g') = 2%nat /\
    state_of g' (1 - playerCount g) = state_of g (1 - playerCount g) /\
    state_of g' (playerCount g) = Z.lor (state_of g (playerCount g)) (Z.shiftl 1 i) /\
    (forall j, Z.testbit (state_of g' (playerCount g)) j =
               Z.testbit (state_of g (playerCount g)) j || (j =? i)) /\
    submask (state_of g (playerCount g)) (state_of g' (playerCount g)).
Proof.
  intros Hwf Hi.
  destruct (well_formed_inv g Hwf) as (m0 & m1 & p & tc & -> & Hp).
  eexists. split; [apply insert_index_two; assumption|].
  simpl playerCount. simpl turnCount.
  assert (Hbits : forall m j, Z.testbit (Z.lor m (Z.shiftl 1 i)) j = Z.testbit m j || (j =? i)).
  { intros m j. rewrite Z.lor_spec, testbit_bit by assumption. reflexivity. }
  destruct Hp as [-> | ->]; two_players; repeat split; try reflexivity;
    try apply Hbits; intros j Hj; rewrite Hbits, Hj; reflexivity.
Qed.

Lemma insert_index_frame_witness :
  exists g', insert_index {| boardStates := [20; 40]; playerCount := 0; turnCount := 4 |} 6
             = Ret g' /\ state_of g' 0 = 84 /\ state_of g' 1 = 40.
Proof.
  destruct (insert_index_frame
              {| boardStates := [20; 40]; playerCount := 0; turnCount := 4 |} 6)
    as (g' & Hins & _ & _ & _ & Hother & Hcur & _).
  - split; [reflexivity | left; reflexivity].
  - lia.
  - exists g'. split; [exact Hins|]. split; [exact Hcur | exact Hother].
Defined.

(** C3: on a well-formed instance, for a cell i in [0,8] that
    [is_in_board_state] reports free, [insert_index(i)] returns normally,
    after which [is_in_board_state(i)] is true, bit i is set in the current
    player's board-state and clear in the other player's. *)
Theorem insert_index_occupies (g : Game_Ops) (i : Z) :
  well_formed g -> 0 <= i <= 8 ->
  is_in_board_state g i = Ret false ->
  exists g', insert_index g i = Ret g' /\
    is_in_board_state g' i = Ret true /\
    Z.testbit (state_of g' (playerCount g)) i = true /\
    Z.testbit (state_of g' (1 - playerCount g)) i = false.
Proof.
  intros Hwf Hi Hfree.
  destruct (well_formed_inv g Hwf) as (m0 & m1 & p & tc & -> & Hp).
  rewrite is_in_board_state_bits in Hfree by lia.
  injection Hfree as Hfree. simpl in Hfree.
  rewrite orb_false_r in Hfree. apply orb_false_iff in Hfree.
  destruct Hfree as [H0 H1].
  eexists. split; [apply insert_index_two; [assumption | lia]|].
  rewrite is_in_board_state_bits by lia.
  assert (Hset : forall m, Z.testbit (Z.lor m (Z.shiftl 1 i)) i = true).
  { intros m. rewrite Z.lor_spec, testbit_bit, Z.eqb_refl by lia. apply orb_true_r. }
  destruct Hp as [-> | ->]; two_players; simpl existsb; rewrite Hset;
    repeat split; try assumption; rewrite ?orb_true_r; reflexivity.
Qed.

Lemma insert_index_occupies_witness :
  exists g', insert_index {| boardStates := [20; 40]; playerCount := 1; turnCount := 4 |} 0
             = Ret g' /\ is_in_board_state g' 0 = Ret true.
Proof.
  destruct (insert_index_occupies
              {| boardStates := [20; 40]; playerCount := 1; turnCount := 4 |} 0)
    as (g' & Hins & Hocc & _).
  - split; [reflexivity | right; reflexivity].
  - lia.
  - reflexivity.
  - exists g'. split; assumption.
Defined.

(** ** Drawing the board *)

Lemma in_py_range (a b x : Z) : a <= x < b -> In x (py_range a b).
Proof.
  intros H. unfold py_range. apply in_map_iff.
  exists (Z.to_nat (x - a)). split; [lia|]. apply in_seq. lia.
Qed.

(** The binary string of a nine-bit board-state, read as the source reads
    it, lists the set bits from cell 8 down to cell 0; checked on each of
    the 512 board-states. *)
Lemma one_indices_bin_str (m : Z) :
  nine_bit m ->
  one_indices (bin_str m) = List.filter (Z.testbit m) cells_desc.
Proof.
  intros Hm.
  assert (Hall : forallb (fun m => bool_decide
                   (one_indices (bin_str m) = List.filter (Z.testbit m) cells_desc))
                   (py_range 0 512) = true) by (vm_compute; reflexivity).
  rewrite forallb_forall in Hall.
  specialize (Hall m (in_py_range 0 512 m Hm)).
  apply bool_decide_eq_true in Hall. exact Hall.
Qed.

Lemma in_cells_desc (i : Z) : In i cells_desc <-> 0 <= i <= 8.
Proof.
  unfold cells_desc. simpl. split; [intuition lia|].
  intros H.
  assert (Hc : i = 0 \/ i = 1 \/ i = 2 \/ i = 3 \/ i = 4 \/ i = 5 \/ i = 6 \/ i = 7 \/ i = 8)
    by lia.
  intuition (subst; auto 10).
Qed.

Lemma one_indices_spec (m i : Z) :
  nine_bit m ->
  (In i (one_indices (bin_str m)) <-> 0 <= i <= 8 /\ Z.testbit m i = true).
Proof.
  intros Hm. rewrite one_indices_bin_str by assumption.
  rewrite filter_In, in_cells_desc. reflexivity.
Qed.

Lemma py_setitem_in_range {A : Type} (l : list A) (i : Z) (x : A) :
  0 <= i < Z.of_nat (length l) ->
  py_setitem l i x = Ret (<[Z.to_nat i := x]> l).
Proof.
  intros Hi. unfold py_setitem, py_index.
  destruct (Z.ltb_spec i 0); [lia|].
  destruct (Z.ltb_spec i 0); [lia|].
  destruct (Z.leb_spec (Z.of_nat (length l)) i); [lia|]. reflexivity.
Qed.

(** The inner [for] loop: every listed cell receives the player's symbol. *)
Lemma py_for_place (symbols : list string) (n : Z) (sym : string) (idxs : list Z) :
  py_getitem symbols n = Ret sym ->
  forall data : list string,
    Forall (fun i => 0 <= i < Z.of_nat (length data)) idxs ->
    py_for idxs
      (fun i data' => (s <- py_getitem symbols n ;; py_setitem data' i s)%py) data
    = Ret (foldl (fun d i => <[Z.to_nat i := sym]> d) data idxs).
Proof.
  intros Hsym.
  set (body := fun (i : Z) (data' : list string) =>
                 (s <- py_getitem symbols n ;; py_setitem data' i s)%py).
  induction idxs as [|i idxs IH]; intros data Hin; simpl.
  - reflexivity.
  - inversion Hin as [|? ? Hi Hrest]; subst.
    unfold body at 1. rewrite Hsym. simpl rbind.
    rewrite py_setitem_in_range by assumption.
    simpl rbind. apply IH. rewrite length_insert. assumption.
Qed.

Lemma length_place (sym : string) (idxs : list Z) (data : list string) :
  length (foldl (fun d i => <[Z.to_nat i := sym]> d) data idxs) = length data.
Proof.
  revert data. induction idxs as [|i idxs IH]; intros data; simpl.
  - reflexivity.
  - rewrite IH. apply length_insert.
Qed.

Lemma lookup_place_in (sym : string) (idxs : list Z) (data : list string) (i : Z) :
  In i idxs -> (Z.to_nat i < length data)%nat ->
  foldl (fun d i => <[Z.to_nat i := sym]> d) data idxs !! Z.to_nat i = Some sym.
Proof.
  revert data. induction idxs as [|j idxs IH]; intros data Hin Hlt; simpl.
  - contradiction.
  - destruct (in_dec Z.eq_dec i idxs) as [Hlater | Hnot].
    + apply IH; [assumption | rewrite length_insert; assumption].
    + destruct Hin as [-> | Hin]; [|contradiction].
      clear IH. revert data Hlt.
      induction idxs as [|k idxs IH]; intros data Hlt; simpl.
      * apply list_lookup_insert_eq. assumption.
      * destruct (decide (Z.to_nat k = Z.to_nat i)) as [E | NE].
        -- rewrite E. rewrite list_insert_insert_eq.
           apply IH; [intros H; apply Hnot; right; exact H | assumption].
        -- rewrite list_insert_insert_ne by congruence.
           apply IH; [intros H; apply Hnot; right; exact H|].
           rewrite length_insert. assumption.
Qed.

Lemma lookup_place_out (sym : string) (idxs : list Z) (data : list string) (k : nat) :
  (forall i, In i idxs -> Z.to_nat i <> k) ->
  foldl (fun d i => <[Z.to_nat i := sym]> d) data idxs !! k = data !! k.
Proof.
  revert data. induction idxs as [|j idxs IH]; intros data Hout; simpl.
  - reflexivity.
  - rewrite IH by (intros i Hi; apply Hout; right; exact Hi).
    apply list_lookup_insert_ne. apply Hout. left. reflexivity.
Qed.

Lemma py_format_board (d0 d1 d2 d3 d4 d5 d6 d7 d8 : string) :
  py_format boardGraphic [d0; d1; d2; d3; d4; d5; d6; d7; d8] =
  Ret (render [d0; d1; d2; d3; d4; d5; d6; d7; d8]).
Proof. vm_compute. reflexivity. Qed.

Lemma length_nine {A : Type} (l : list A) :
  length l = 9%nat ->
  exists d0 d1 d2 d3 d4 d5 d6 d7 d8, l = [d0; d1; d2; d3; d4; d5; d6; d7; d8].
Proof.
  intros H.
  do 9 (destruct l as [|? l]; [discriminate H|]).
  destruct l; [|discriminate H]. eauto 12.
Qed.

Lemma fill_board_two (s0 s1 : string) (idxs0 idxs1 : list Z) (data : list string) :
  Forall (fun i => 0 <= i < Z.of_nat (length data)) idxs0 ->
  Forall (fun i => 0 <= i < Z.of_nat (length data)) idxs1 ->
  fill_board [s0; s1] [idxs0; idxs1] data =
  Ret (foldl (fun d i => <[Z.to_nat i := s1]> d)
             (foldl (fun d i => <[Z.to_nat i := s0]> d) data idxs0) idxs1).
Proof.
  intros H0 H1. unfold fill_board, enumerate.
  cbn [enumerate_from py_for fst snd].
  rewrite (py_for_place [s0; s1] 0 s0) by (reflexivity || assumption).
  cbn [rbind]. change (0 + 1) with 1.
  rewrite (py_for_place [s0; s1] 1 s1);
    [reflexivity | reflexivity | rewrite length_place; assumption].
Qed.

Lemma one_indices_in_range (m : Z) :
  nine_bit m ->
  Forall (fun i => 0 <= i < Z.of_nat (length (replicate 9 " "))) (one_indices (bin_str m)).
Proof.
  intros Hm. apply Forall_forall. intros i Hi.
  apply list_elem_of_In in Hi.
  apply one_indices_spec in Hi; [|assumption].
  rewrite length_replicate. lia.
Qed.

(** What ends up in cell i of [boardData]. *)
Lemma board_data_cells (m0 m1 : Z) (s0 s1 : string) :
  nine_bit m0 -> nine_bit m1 ->
  exists data,
    board_data [s0; s1] [m0; m1] = Ret data /\ length data = 9%nat /\
    forall i, 0 <= i <= 8 ->
      data !! Z.to_nat i =
      Some (if Z.testbit m1 i then s1 else if Z.testbit m0 i then s0 else " ").
Proof.
  intros Hm0 Hm1. eexists. split; [|split].
  - unfold board_data.
    change (py_getitem [m0; m1] 0) with (Ret m0).
    change (py_getitem [m0; m1] 1) with (Ret m1).
    cbn [rbind].
    apply fill_board_two; apply one_indices_in_range; assumption.
  - rewrite !length_place. apply length_replicate.
  - intros i Hi.
    destruct (Z.testbit m1 i) eqn:B1.
    + apply lookup_place_in.
      * apply one_indices_spec; [assumption | split; assumption].
      * rewrite length_place, length_replicate. lia.
    + rewrite lookup_place_out.
      2:{ intros j Hj. apply one_indices_spec in Hj; [|assumption].
          destruct Hj as [Hj Hbit]. intros E.
          assert (j = i) by lia. subst j. congruence. }
      destruct (Z.testbit m0 i) eqn:B0.
      * apply lookup_place_in.
        -- apply one_indices_spec; [assumption | split; assumption].
        -- rewrite length_replicate. lia.
      * rewrite lookup_place_out.
        2:{ intros j Hj. apply one_indices_spec in Hj; [|assumption].
            destruct Hj as [Hj Hbit]. intros E.
            assert (j = i) by lia. subst j. congruence. }
        apply lookup_replicate_2. lia.
Qed.

Lemma frontend_draw_board_run (symbols : list string) (w : World) (data : list string) :
  board_data symbols (boardStates (instance w)) = Ret data ->
  length data = 9%nat ->
  frontend_draw_board symbols w = (wrote w [Clear; Print (render data)], Ret tt).
Proof.
  intros Hdata Hlen.
  destruct (length_nine data Hlen) as (d0 & d1 & d2 & d3 & d4 & d5 & d6 & d7 & d8 & ->).
  unfold frontend_draw_board, clearScreen, call, get_instance, print, emit, lift, mbind.
  cbn [instance stdin stdout history].
  rewrite Hdata, py_format_board.
  unfold wrote. rewrite <- app_assoc. reflexivity.
Qed.

Lemma disjoint_bits (m0 m1 i : Z) :
  Z.land m0 m1 = 0 -> Z.testbit m0 i = true -> Z.testbit m1 i = false.
Proof.
  intros H B0.
  assert (Hb : Z.testbit (Z.land m0 m1) i = false) by (rewrite H; apply Z.bits_0).
  rewrite Z.land_spec, B0 in Hb. exact Hb.
Qed.

(** C8: for disjoint nine-bit board-states m0 and m1, [frontend_draw_board]
    clears the screen and prints the playfield filled with a list of nine
    texts in which, for every cell i in [0,8]: the list of cells written
    for player p contains i exactly when bit i of player p's board-state is
    set; cell i shows symbols[p] when bit i of player p's board-state is
    set and a space when it is set in neither; and, when the two symbols
    differ from each other and from the space, cell i shows symbols[p] only
    then. *)
Theorem draw_board_decodes (m0 m1 : Z) (s0 s1 : string) (w : World) :
  nine_bit m0 -> nine_bit m1 -> Z.land m0 m1 = 0 ->
  boardStates (instance w) = [m0; m1] ->
  exists data,
    board_data [s0; s1] [m0; m1] = Ret data /\
    length data = 9%nat /\
    frontend_draw_board [s0; s1] w = (wrote w [Clear; Print (render data)], Ret tt) /\
    (forall i, In i (one_indices (bin_str m0)) <-> 0 <= i <= 8 /\ Z.testbit m0 i = true) /\
    (forall i, In i (one_indices (bin_str m1)) <-> 0 <= i <= 8 /\ Z.testbit m1 i = true) /\
    (forall i, 0 <= i <= 8 ->
       (Z.testbit m0 i = true -> slot data (Z.to_nat i) = s0) /\
       (Z.testbit m1 i = true -> slot data (Z.to_nat i) = s1) /\
       (Z.testbit m0 i = false -> Z.testbit m1 i = false ->
        slot data (Z.to_nat i) = " ")) /\
    (s0 <> s1 -> s0 <> " " -> s1 <> " " ->
     forall i, 0 <= i <= 8 ->
       (slot data (Z.to_nat i) = s0 <-> Z.testbit m0 i = true) /\
       (slot data (Z.to_nat i) = s1 <-> Z.testbit m1 i = true)).
Proof.
  intros Hm0 Hm1 Hdis Hw.
  destruct (board_data_cells m0 m1 s0 s1 Hm0 Hm1) as (data & Hdata & Hlen & Hcells).
  assert (Hslot : forall i, 0 <= i <= 8 ->
            slot data (Z.to_nat i) =
            if Z.testbit m1 i then s1 else if Z.testbit m0 i then s0 else " ").
  { intros i Hi. unfold slot. rewrite nth_lookup, (Hcells i Hi). reflexivity. }
  exists data. split; [exact Hdata|]. split; [exact Hlen|].
  split; [apply frontend_draw_board_run; [rewrite Hw; exact Hdata | exact Hlen]|].
  split; [intros i; apply one_indices_spec; assumption|].
  split; [intros i; apply one_indices_spec; assumption|].
  split.
  - intros i Hi. rewrite (Hslot i Hi). repeat split.
    + intros B0. rewrite (disjoint_bits m0 m1 i Hdis B0), B0. reflexivity.
    + intros B1. rewrite B1. reflexivity.
    + intros B0 B1. rewrite B0, B1. reflexivity.
  - intros N01 N0 N1 i Hi. rewrite (Hslot i Hi).
    destruct (Z.testbit m1 i) eqn:B1; destruct (Z.testbit m0 i) eqn:B0;
      try (rewrite (disjoint_bits m0 m1 i Hdis B0) in B1; discriminate);
      split; split; intros H; try reflexivity; try discriminate; congruence.
Qed.

Lemma draw_board_decodes_witness :
  exists data,
    board_data ["X"; "O"] [20; 40] = Ret data /\
    frontend_draw_board ["X"; "O"]
      {| instance := {| boardStates := [20; 40]; playerCount := 0; turnCount := 4 |};
         stdin := []; stdout := []; history := [] |}
    = ({| instance := {| boardStates := [20; 40]; playerCount := 0; turnCount := 4 |};
          stdin := []; stdout := [Clear; Print (render data)]; history := [] |}, Ret tt) /\
    slot data 2 = "X" /\ slot data 3 = "O" /\ slot data 0 = " ".
Proof.
  destruct (draw_board_decodes 20 40 "X" "O"
              {| instance := {| boardStates := [20; 40]; playerCount := 0; turnCount := 4 |};
                 stdin := []; stdout := []; history := [] |})
    as (data & Hdata & _ & Hdraw & _ & _ & Hcells & _).
  - unfold nine_bit. lia.
  - unfold nine_bit. lia.
  - reflexivity.
  - reflexivity.
  - exists data. split; [exact Hdata|]. split; [exact Hdraw|].
    split; [|split].
    + apply (proj1 (Hcells 2 ltac:(lia))). reflexivity.
    + apply (proj1 (proj2 (Hcells 3 ltac:(lia)))). reflexivity.
    + apply (proj2 (proj2 (Hcells 0 ltac:(lia)))); reflexivity.
Defined.

(** ** Asking for a move *)

Lemma py_in_cells (line : string) :
  py_in line (map py_str (py_range 0 9)) = true ->
  exists i, 0 <= i <= 8 /\ line = py_str i /\ py_int line = Ret i.
Proof.
  change (map py_str (py_range 0 9))
    with ["0"; "1"; "2"; "3"; "4"; "5"; "6"; "7"; "8"].
  unfold py_in. simpl existsb. rewrite orb_false_r.
  rewrite !orb_true_iff, !String.eqb_eq.
  intros H.
  repeat (destruct H as [-> | H]);
    [exists 0 | exists 1 | exists 2 | exists 3 | exists 4 | exists 5 | exists 6 | exists 7
     | subst line; exists 8];
    (split; [lia | split; reflexivity]).
Qed.

Lemma py_in_cells_str (i : Z) :
  0 <= i <= 8 -> py_in (py_str i) (map py_str (py_range 0 9)) = true.
Proof.
  intros H.
  assert (Hc : i = 0 \/ i = 1 \/ i = 2 \/ i = 3 \/ i = 4 \/ i = 5 \/ i = 6 \/ i = 7 \/ i = 8)
    by lia.
  repeat (destruct Hc as [-> | Hc]; [reflexivity|]). subst. reflexivity.
Qed.

Lemma py_in_cells_false (line : string) :
  py_in line (map py_str (py_range 0 9)) = false ->
  forall i, 0 <= i <= 8 -> line <> py_str i.
Proof.
  intros H i Hi ->. rewrite py_in_cells_str in H by assumption. discriminate.
Qed.

Lemma is_in_board_state_two (m0 m1 p tc i : Z) :
  0 <= i ->
  is_in_board_state {| boardStates := [m0; m1]; playerCount := p; turnCount := tc |} i
  = Ret (Z.testbit m0 i || Z.testbit m1 i).
Proof.
  intros Hi. rewrite is_in_board_state_bits by assumption.
  simpl. rewrite orb_false_r. reflexivity.
Qed.

Section AskOnce.

Variables (symbols : list string) (sym : string) (w : World).
Hypothesis Hsym : py_getitem symbols (playerCount (instance w)) = Ret sym.

(** At the end of the input the prompt is written and [input] raises. *)
Lemma ask_once_eof :
  ask_once symbols (reading w []) =
  (wrote (reading w []) [Prompt (ask_prompt sym)], Raise EOFError).
Proof.
  unfold ask_once, call, get_instance, lift, input, emit, mbind.
  cbn [reading instance stdin stdout history]. rewrite Hsym. reflexivity.
Qed.

(** A line that is not one of '0', ..., '8' is answered with the range
    message. *)
Lemma ask_once_no_cell (line : string) (rest : list string) :
  py_in line (map py_str (py_range 0 9)) = false ->
  ask_once symbols (reading w (line :: rest)) =
  (wrote (reading w rest) [Prompt (ask_prompt sym); Print msg_range], Ret None).
Proof.
  intros Hno.
  unfold ask_once, call, get_instance, lift, input, print, emit, mret, mbind.
  cbn [reading instance stdin stdout history]. rewrite Hsym, Hno.
  cbn [negb]. unfold wrote. cbn [reading instance stdin stdout history].
  rewrite <- app_assoc. reflexivity.
Qed.

(** The numeral of a cell is answered according to [is_in_board_state]. *)
Lemma ask_once_cell (i : Z) (rest : list string) (taken : bool) :
  0 <= i <= 8 ->
  is_in_board_state (instance w) i = Ret taken ->
  ask_once symbols (reading w (py_str i :: rest)) =
  if taken
  then (wrote (reading w rest) [Prompt (ask_prompt sym); Print msg_taken], Ret None)
  else (wrote (reading w rest) [Prompt (ask_prompt sym)], Ret (Some i)).
Proof.
  intros Hi Htaken.
  assert (py_int (py_str i) = Ret i) as Hint'.
  { assert (Hc : i = 0 \/ i = 1 \/ i = 2 \/ i = 3 \/ i = 4 \/ i = 5 \/ i = 6 \/ i = 7
                 \/ i = 8) by lia.
    repeat (destruct Hc as [-> | Hc]; [reflexivity|]). subst. reflexivity. }
  unfold ask_once, call, get_instance, lift, input, print, emit, mret, mbind.
  cbn [reading instance stdin stdout history].
  rewrite Hsym, (py_in_cells_str i Hi). cbn [negb].
  rewrite Hint'. cbv beta iota. cbn [instance stdin stdout history].
  rewrite Htaken. unfold wrote. cbn [reading instance stdin stdout history].
  destruct taken; cbn [reading instance stdin stdout history];
    rewrite <- ?app_assoc; reflexivity.
Qed.

End AskOnce.

Lemma reading_stdin (w : World) : reading w (stdin w) = w.
Proof. destruct w. reflexivity. Qed.

Lemma frontend_ask_input_retry (symbols : list string) (w w1 : World) :
  ask_once symbols w = (w1, Ret None) ->
  S (length (stdin w1)) = length (stdin w) ->
  frontend_ask_input symbols w = frontend_ask_input symbols w1.
Proof.
  intros Hask Hlen. unfold frontend_ask_input. rewrite <- Hlen.
  cbn [while_true]. unfold mbind at 1. rewrite Hask. reflexivity.
Qed.

Lemma frontend_ask_input_done (symbols : list string) (w w1 : World) (i : Z) :
  ask_once symbols w = (w1, Ret (Some i)) ->
  frontend_ask_input symbols w = (w1, Ret i).
Proof.
  intros Hask. unfold frontend_ask_input.
  cbn [while_true]. unfold mbind at 1. rewrite Hask. reflexivity.
Qed.

Lemma frontend_ask_input_raise (symbols : list string) (w w1 : World) (e : exn) :
  ask_once symbols w = (w1, Raise e) ->
  frontend_ask_input symbols w = (w1, Raise e).
Proof.
  intros Hask. unfold frontend_ask_input.
  cbn [while_true]. unfold mbind at 1. rewrite Hask. reflexivity.
Qed.

Lemma ask_outcome_refused (symbols : list string) (sym line msg : string)
    (w w1 w' : World) (refused : list (string * string)) (r : result Z) :
  ask_once symbols w = (w1, Ret None) ->
  w1 = wrote (reading w (tl (stdin w))) [Prompt (ask_prompt sym); Print msg] ->
  stdin w = line :: tl (stdin w) ->
  refusal (instance w) line msg ->
  ask_outcome symbols sym w1 refused w' r ->
  ask_outcome symbols sym w ((line, msg) :: refused) w' r.
Proof.
  intros Hask -> Hline Href (Hrun & Hinst & Hhist & Hall & Hout & Hend).
  cbn [wrote reading instance stdin stdout history] in *.
  repeat split.
  - rewrite <- Hrun. apply frontend_ask_input_retry; [exact Hask|].
    cbn [wrote reading instance stdin stdout history].
    rewrite Hline at 2. reflexivity.
  - exact Hinst.
  - exact Hhist.
  - constructor; assumption.
  - rewrite Hout. cbn [transcript flat_map snd app].
    rewrite <- app_assoc. reflexivity.
  - destruct Hend as [(-> & Hin & Hnil) | (i & -> & Hi & Hfree & B0 & B1 & Hin)].
    + left. repeat split; [|exact Hnil].
      rewrite Hline. cbn [map fst]. rewrite Hin. reflexivity.
    + right. exists i. repeat split; try assumption; try lia.
      rewrite Hline. cbn [map fst app]. rewrite Hin. reflexivity.
Qed.

Lemma frontend_ask_input_outcome (symbols : list string) (sym : string)
    (m0 m1 : Z) (lines : list string) :
  forall w : World,
    stdin w = lines ->
    boardStates (instance w) = [m0; m1] ->
    py_getitem symbols (playerCount (instance w)) = Ret sym ->
    exists refused w' r, ask_outcome symbols sym w refused w' r.
Proof.
  induction lines as [|line rest IH]; intros w Hlines Hstates Hsym.
  - assert (Hw : reading w [] = w) by (rewrite <- Hlines; apply reading_stdin).
    pose proof (ask_once_eof symbols sym w Hsym) as Hask. rewrite Hw in Hask.
    exists [], (wrote w [Prompt (ask_prompt sym)]), (Raise EOFError).
    unfold ask_outcome.
    cbn [wrote reading instance stdin stdout history transcript flat_map app map].
    refine (conj _ (conj eq_refl (conj eq_refl (conj (List.Forall_nil _) (conj eq_refl _))))).
    + apply frontend_ask_input_raise. exact Hask.
    + left. repeat split; exact Hlines.
  - assert (Hg : instance w = {| boardStates := [m0; m1];
                                 playerCount := playerCount (instance w);
                                 turnCount := turnCount (instance w) |}).
    { destruct (instance w); simpl in *; subst; reflexivity. }
    assert (Hw : w = reading w (line :: rest))
      by (rewrite <- Hlines; symmetry; apply reading_stdin).
    assert (Htl : tl (stdin w) = rest) by (rewrite Hlines; reflexivity).
    assert (Hhd : stdin w = line :: tl (stdin w)) by (rewrite Htl; exact Hlines).
    destruct (py_in line (map py_str (py_range 0 9))) eqn:Hin.
    + destruct (py_in_cells line Hin) as (i & Hi & -> & _).
      assert (Htaken : is_in_board_state (instance w) i
                       = Ret (Z.testbit m0 i || Z.testbit m1 i)).
      { rewrite Hg. apply is_in_board_state_two. lia. }
      pose proof (ask_once_cell symbols sym w Hsym i rest _ Hi Htaken) as Hask.
      rewrite <- Hw in Hask.
      destruct (Z.testbit m0 i || Z.testbit m1 i) eqn:Hbits.
      * destruct (IH (wrote (reading w rest) [Prompt (ask_prompt sym); Print msg_taken]))
          as (refused & w' & r & Hout); try assumption; [reflexivity|].
        exists ((py_str i, msg_taken) :: refused), w', r.
        eapply ask_outcome_refused; try eassumption.
        -- rewrite Htl. reflexivity.
        -- constructor; [assumption|].
           rewrite Hg, state_of_0, state_of_1.
           apply orb_true_iff. exact Hbits.
      * apply orb_false_iff in Hbits. destruct Hbits as [B0 B1].
        exists [], (wrote (reading w rest) [Prompt (ask_prompt sym)]), (Ret i).
        unfold ask_outcome.
        cbn [wrote reading instance stdin stdout history transcript flat_map app map].
        refine (conj _ (conj eq_refl (conj eq_refl (conj (List.Forall_nil _) (conj eq_refl _))))).
        -- apply frontend_ask_input_done. exact Hask.
        -- right. exists i. rewrite Htaken, Hg, state_of_0, state_of_1, B0, B1.
           repeat split; try assumption; lia.
    + pose proof (ask_once_no_cell symbols sym w Hsym line rest Hin) as Hask.
      rewrite <- Hw in Hask.
      destruct (IH (wrote (reading w rest) [Prompt (ask_prompt sym); Print msg_range]))
        as (refused & w' & r & Hout); try assumption; [reflexivity|].
      exists ((line, msg_range) :: refused), w', r.
      eapply ask_outcome_refused; try eassumption.
      * rewrite Htl. reflexivity.
      * constructor. apply py_in_cells_false. exact Hin.
Qed.

Lemma symbols_getitem (symbols : list string) (g : Game_Ops) :
  length symbols = 2%nat -> well_formed g ->
  exists sym, py_getitem symbols (playerCount g) = Ret sym.
Proof.
  intros Hlen [_ Hp]. destruct (length_two symbols Hlen) as (s0 & s1 & ->).
  rewrite py_getitem_two by assumption. eauto.
Qed.

Lemma py_int_not_cell (line : string) :
  py_int line = Raise ValueError \/
  (exists n, py_int line = Ret n /\ (n < 0 \/ 8 < n)) ->
  py_in line (map py_str (py_range 0 9)) = false.
Proof.
  intros H. destruct (py_in line (map py_str (py_range 0 9))) eqn:Hin; [|reflexivity].
  destruct (py_in_cells line Hin) as (i & Hi & _ & Hint).
  rewrite Hint in H. destruct H as [H | (n & H & Hn)]; [discriminate|].
  injection H as <-. lia.
Qed.

(** C5: with two symbols and a well-formed instance, a call of
    [frontend_ask_input] on any input ends in one of two ways: the input
    runs out ([EOFError]), or it returns an index i in [0,8] whose cell
    [is_in_board_state] reports free, bit i being clear in both
    board-states.  Every line read before that was refused, because it is
    not the numeral of a cell (range message) or names a taken cell (taken
    message), and after each refusal the prompt is written again; the
    instance (both board-states, turn counter, player index) is the same
    after the call as before it.  In particular a line that [int] cannot
    read, a line that reads as a number outside [0,8], and the numeral of a
    taken cell each make the function write its message and start over on
    the rest of the input with the instance untouched. *)
Theorem ask_input_returns_valid_move (symbols : list string) (w : World) :
  length symbols = 2%nat -> well_formed (instance w) ->
  exists sym,
    py_getitem symbols (playerCount (instance w)) = Ret sym /\
    (exists refused w' r,
       frontend_ask_input symbols w = (w', r) /\
       instance w' = instance w /\
       history w' = history w /\
       Forall (fun lm => refusal (instance w) (fst lm) (snd lm)) refused /\
       stdout w' = stdout w ++ transcript (ask_prompt sym) refused
                            ++ [Prompt (ask_prompt sym)] /\
       ((r = Raise EOFError /\ stdin w = map fst refused /\ stdin w' = []) \/
        (exists i, r = Ret i /\ 0 <= i <= 8 /\
           is_in_board_state (instance w) i = Ret false /\
           Z.testbit (state_of (instance w) 0) i = false /\
           Z.testbit (state_of (instance w) 1) i = false /\
           stdin w = map fst refused ++ py_str i :: stdin w'))) /\
    (forall line rest,
       py_int line = Raise ValueError \/
       (exists n, py_int line = Ret n /\ (n < 0 \/ 8 < n)) ->
       frontend_ask_input symbols (reading w (line :: rest)) =
       frontend_ask_input symbols
         (wrote (reading w rest) [Prompt (ask_prompt sym); Print msg_range])) /\
    (forall i rest,
       0 <= i <= 8 -> is_in_board_state (instance w) i = Ret true ->
       frontend_ask_input symbols (reading w (py_str i :: rest)) =
       frontend_ask_input symbols
         (wrote (reading w rest) [Prompt (ask_prompt sym); Print msg_taken])).
Proof.
  intros Hlen Hwf.
  destruct (symbols_getitem symbols (instance w) Hlen Hwf) as (sym & Hsym).
  exists sym. split; [exact Hsym|]. split; [|split].
  - destruct Hwf as [Hstates _].
    destruct (length_two _ Hstates) as (m0 & m1 & Hbs).
    destruct (frontend_ask_input_outcome symbols sym m0 m1 (stdin w) w
                eq_refl Hbs Hsym) as (refused & w' & r & Hout).
    exists refused, w', r. exact Hout.
  - intros line rest Hline.
    apply frontend_ask_input_retry; [|reflexivity].
    apply (ask_once_no_cell symbols sym w Hsym line rest).
    apply py_int_not_cell. exact Hline.
  - intros i rest Hi Htaken.
    apply frontend_ask_input_retry; [|reflexivity].
    apply (ask_once_cell symbols sym w Hsym i rest true Hi Htaken).
Qed.

Lemma ask_input_returns_valid_move_witness :
  let w := {| instance := {| boardStates := [1; 2]; playerCount := 0; turnCount := 2 |};
              stdin := ["abc"; "9"; "1"; "4"; "7"]; stdout := []; history := [] |} in
  exists sym w' r,
    py_getitem ["X"; "O"] 0 = Ret sym /\
    frontend_ask_input ["X"; "O"] w = (w', r) /\ instance w' = instance w.
Proof.
  intros w.
  destruct (ask_input_returns_valid_move ["X"; "O"] w)
    as (sym & Hsym & (refused & w' & r & Hrun & Hinst & _) & _).
  - reflexivity.
  - split; [reflexivity | left; reflexivity].
  - exists sym, w', r. split; [exact Hsym|]. split; [exact Hrun | exact Hinst].
Defined.

(** ** One placement *)

Lemma popcount9_nonneg (m : Z) : 0 <= popcount9 m <= 9.
Proof.
  unfold popcount9.
  change (py_range 0 9) with [0; 1; 2; 3; 4; 5; 6; 7; 8]. cbn [fold_right].
  repeat match goal with
         | |- context [Z.b2z ?b] =>
             let x := fresh "x" in
             let H := fresh "H" in
             assert (H : 0 <= Z.b2z b <= 1) by (destruct b; simpl; lia);
             set (x := Z.b2z b) in *; clearbody x
         end.
  lia.
Qed.

Lemma popcount9_place (m i : Z) :
  0 <= i <= 8 -> Z.testbit m i = false ->
  popcount9 (Z.lor m (Z.shiftl 1 i)) = popcount9 m + 1.
Proof.
  intros Hi Hfree. unfold popcount9.
  change (py_range 0 9) with [0; 1; 2; 3; 4; 5; 6; 7; 8]. cbn [fold_right].
  rewrite !Z.lor_spec, !testbit_bit by lia.
  assert (Hc : i = 0 \/ i = 1 \/ i = 2 \/ i = 3 \/ i = 4 \/ i = 5 \/ i = 6 \/ i = 7 \/ i = 8)
    by lia.
  repeat (destruct Hc as [Hc | Hc]);
    subst i; cbn [Z.eqb Pos.eqb]; rewrite !orb_false_r, Hfree; cbn [orb Z.b2z]; lia.
Qed.

Lemma nine_bit_place (m i : Z) :
  nine_bit m -> 0 <= i <= 8 -> nine_bit (Z.lor m (Z.shiftl 1 i)).
Proof.
  unfold nine_bit. intros Hm Hi.
  assert (Hbit : 0 < Z.shiftl 1 i) by (rewrite Z.shiftl_1_l; apply Z.pow_pos_nonneg; lia).
  assert (Hnn : 0 <= Z.lor m (Z.shiftl 1 i)) by (apply Z.lor_nonneg; lia).
  split; [exact Hnn|].
  assert (Hpos : 0 < Z.lor m (Z.shiftl 1 i)).
  { destruct (Z.eq_dec (Z.lor m (Z.shiftl 1 i)) 0) as [E | NE]; [|lia].
    apply Z.lor_eq_0_iff in E. lia. }
  change 512 with (2 ^ 9). apply Z.log2_lt_pow2; [exact Hpos|].
  rewrite Z.log2_lor by lia.
  apply Z.max_lub_lt.
  - destruct (Z.eq_dec m 0) as [-> | NE]; [simpl; lia|].
    apply Z.log2_lt_pow2; [lia|]. change (2 ^ 9) with 512. lia.
  - rewrite Z.shiftl_1_l, Z.log2_pow2 by lia. lia.
Qed.

Lemma disjoint_place (m other i : Z) :
  0 <= i -> Z.land m other = 0 -> Z.testbit other i = false ->
  Z.land (Z.lor m (Z.shiftl 1 i)) other = 0.
Proof.
  intros Hi Hdis Hfree. apply Z.bits_inj'. intros j Hj.
  rewrite Z.land_spec, Z.lor_spec, testbit_bit, Z.bits_0 by assumption.
  destruct (Z.eqb_spec j i) as [-> | _].
  - rewrite Hfree. apply andb_false_r.
  - rewrite orb_false_r, <- Z.land_spec, Hdis. apply Z.bits_0.
Qed.

Lemma is_win_total (g : Game_Ops) :
  well_formed g ->
  is_win g = Ret (existsb (fun w => Z.land (state_of g (playerCount g)) w =? w)
                          win_conditions).
Proof.
  intros Hwf. destruct (well_formed_inv g Hwf) as (m0 & m1 & p & tc & -> & Hp).
  apply is_win_state. simpl boardStates. simpl playerCount.
  rewrite py_getitem_two by assumption.
  destruct Hp as [-> | ->]; reflexivity.
Qed.

Lemma is_win_false (g : Game_Ops) :
  well_formed g -> is_win g = Ret false -> no_win (state_of g (playerCount g)).
Proof.
  intros Hwf Hw. rewrite is_win_total in Hw by assumption.
  intros w Hin E.
  assert (Ht : existsb (fun w => Z.land (state_of g (playerCount g)) w =? w)
                       win_conditions = true).
  { apply existsb_exists. exists w. split; [assumption | apply Z.eqb_eq; assumption]. }
  rewrite Ht in Hw. discriminate Hw.
Qed.

Lemma at_rest_nonneg (g : Game_Ops) : at_rest g -> 0 <= turnCount g.
Proof.
  intros (_ & _ & _ & _ & Htc & _). rewrite Htc. unfold marks.
  pose proof (popcount9_nonneg (state_of g 0)).
  pose proof (popcount9_nonneg (state_of g 1)). lia.
Qed.

Lemma at_rest_count (g : Game_Ops) : at_rest g -> turnCount g = marks g.
Proof. intros (_ & _ & _ & _ & Htc & _). exact Htc. Qed.

Lemma at_rest_sound (g : Game_Ops) : at_rest g -> sound g.
Proof.
  intros Hg. pose proof (at_rest_nonneg g Hg) as Hnn.
  destruct Hg as ((Hlen & _) & _ & _ & Hdis & Htc & Hle & _).
  repeat split; try assumption. left. symmetry. assumption.
Qed.

(** A placement at a free cell by the player whose turn it is. *)
Lemma placement (g : Game_Ops) (i : Z) :
  at_rest g -> 0 <= i <= 8 -> is_in_board_state g i = Ret false ->
  exists g1,
    insert_index g i = Ret g1 /\
    well_formed g1 /\
    playerCount g1 = playerCount g /\
    turnCount g1 = turnCount g /\
    nine_bit (state_of g1 0) /\ nine_bit (state_of g1 1) /\
    disjoint g1 /\
    marks g1 = marks g + 1 /\
    no_win (state_of g1 (1 - playerCount g)).
Proof.
  intros (Hwf & N0 & N1 & Hdis & Htc & Hle & W0 & W1) Hi Hfree.
  destruct (well_formed_inv g Hwf) as (m0 & m1 & p & tc & -> & Hp).
  rewrite is_in_board_state_two in Hfree by lia.
  injection Hfree as Hfree. apply orb_false_iff in Hfree. destruct Hfree as [B0 B1].
  unfold disjoint, marks in *. rewrite ?state_of_0, ?state_of_1 in *.
  eexists. split; [apply insert_index_two; [assumption | lia]|].
  cbn [playerCount turnCount].
  destruct Hp as [-> | ->]; two_players; unfold well_formed, disjoint, marks;
    cbn [boardStates playerCount length]; rewrite ?state_of_0, ?state_of_1.
  - split; [split; [reflexivity | left; reflexivity]|].
    split; [reflexivity|]. split; [reflexivity|].
    split; [apply nine_bit_place; assumption|]. split; [assumption|].
    split; [apply disjoint_place; [lia | assumption | assumption]|].
    split; [rewrite popcount9_place by assumption; lia | assumption].
  - split; [split; [reflexivity | right; reflexivity]|].
    split; [reflexivity|]. split; [reflexivity|].
    split; [assumption|]. split; [apply nine_bit_place; assumption|].
    split.
    + rewrite Z.land_comm. apply disjoint_place; [lia | | assumption].
      rewrite Z.land_comm. assumption.
    + split; [rewrite popcount9_place by assumption; lia | assumption].
Qed.

(** ** Running the monad *)

Lemma mbind_ret {A B : Type} (m : M A) (k : A -> M B) (w w' : World) (a : A) :
  m w = (w', Ret a) -> mbind m k w = k a w'.
Proof. intros H. unfold mbind. rewrite H. reflexivity. Qed.

Lemma mbind_raise {A B : Type} (m : M A) (k : A -> M B) (w w' : World) (e : exn) :
  m w = (w', Raise e) -> mbind m k w = (w', Raise e).
Proof. intros H. unfold mbind. rewrite H. reflexivity. Qed.

Lemma call_run {A : Type} (method : Game_Ops -> result A) (w : World) :
  call method w = (w, method (instance w)).
Proof. reflexivity. Qed.

Lemma call_mut_run (method : Game_Ops -> result Game_Ops) (w : World) (g : Game_Ops) :
  method (instance w) = Ret g -> call_mut method w = (becomes w g, Ret tt).
Proof.
  intros H. unfold call_mut, call, get_instance, lift, set_instance, mbind.
  rewrite H. reflexivity.
Qed.

Lemma frontend_draw_board_total (symbols : list string) (w : World) :
  length symbols = 2%nat ->
  length (boardStates (instance w)) = 2%nat ->
  nine_bit (state_of (instance w) 0) -> nine_bit (state_of (instance w) 1) ->
  exists data,
    frontend_draw_board symbols w = (wrote w [Clear; Print (render data)], Ret tt).
Proof.
  intros Hsym Hlen N0 N1.
  destruct (length_two symbols Hsym) as (s0 & s1 & ->).
  destruct (length_two _ Hlen) as (m0 & m1 & Hbs).
  unfold state_of in N0, N1. rewrite Hbs in N0, N1. simpl in N0, N1.
  destruct (board_data_cells m0 m1 s0 s1 N0 N1) as (data & Hdata & Hlen9 & _).
  exists data. apply frontend_draw_board_run; [rewrite Hbs|]; assumption.
Qed.

(** ** One turn *)

Lemma turn_outcome (symbols : list string) (w : World) :
  length symbols = 2%nat -> at_rest (instance w) ->
  exists w' r,
    turn symbols w = (w', r) /\
    ((r = Raise EOFError /\ instance w' = instance w /\ history w' = history w /\
      exists prompt, last (stdout w') = Some (Prompt prompt)) \/
     (exists i g1,
        0 <= i <= 8 /\
        is_in_board_state (instance w) i = Ret false /\
        insert_index (instance w) i = Ret g1 /\
        ((is_win g1 = Ret false /\ r = Ret tt /\
          instance w' = update_turn (update_player_count g1) 1 /\
          history w' = history w ++ [g1; update_player_count g1;
                                     update_turn (update_player_count g1) 1]) \/
         (is_win g1 = Ret true /\ r = Raise SystemExit /\
          instance w' = g1 /\ history w' = history w ++ [g1] /\
          exists sym, py_getitem symbols (playerCount g1) = Ret sym /\
                      last (stdout w') = Some (Print ("Player " +:+ sym +:+ " won!")))))).
Proof.
  intros Hsym Hrest.
  pose proof Hrest as (Hwf & N0 & N1 & _).
  destruct (frontend_draw_board_total symbols w Hsym (proj1 Hwf) N0 N1) as (data & Hdraw).
  unfold turn. rewrite (mbind_ret _ _ _ _ _ Hdraw). cbv beta.
  set (w1 := wrote w [Clear; Print (render data)]).
  destruct (symbols_getitem symbols (instance w1) Hsym Hwf) as (sym & Hget).
  destruct (length_two _ (proj1 Hwf)) as (m0 & m1 & Hbs).
  destruct (frontend_ask_input_outcome symbols sym m0 m1 (stdin w1) w1 eq_refl Hbs Hget)
    as (refused & w2 & r & Hask & Hinst & Hhist & _ & Hout & Hend).
  change (instance w1) with (instance w) in *.
  change (history w1) with (history w) in *.
  destruct Hend as [(-> & _) | (i & -> & Hi & Hfree & _)].
  - exists w2, (Raise EOFError). split.
    + apply mbind_raise. exact Hask.
    + left. split; [reflexivity|]. split; [assumption|]. split; [assumption|].
      exists (ask_prompt sym). rewrite Hout, app_assoc. apply last_snoc.
  - rewrite (mbind_ret _ _ _ _ _ Hask). cbv beta.
    destruct (placement (instance w) i Hrest Hi Hfree)
      as (g1 & Hins & Hwf1 & _ & _ & N0' & N1' & _).
    assert (Hins2 : insert_index (instance w2) i = Ret g1) by (rewrite Hinst; exact Hins).
    rewrite (mbind_ret _ _ _ _ _
               (call_mut_run (fun g => insert_index g i) w2 g1 Hins2)). cbv beta.
    rewrite (mbind_ret _ _ (becomes w2 g1) (becomes w2 g1)
               (existsb (fun x => Z.land (state_of g1 (playerCount g1)) x =? x)
                        win_conditions)).
    2:{ rewrite call_run. cbn [becomes instance]. rewrite is_win_total by assumption.
        reflexivity. }
    cbv beta.
    destruct (existsb _ win_conditions) eqn:Hwon.
    + destruct (frontend_draw_board_total symbols (becomes w2 g1) Hsym (proj1 Hwf1) N0' N1')
        as (data' & Hdraw').
      destruct (symbols_getitem symbols g1 Hsym Hwf1) as (sym' & Hget').
      eexists. exists (Raise SystemExit). split.
      * rewrite (mbind_ret _ _ _ _ _ Hdraw'). cbv beta.
        unfold call at 1. unfold get_instance, lift, print, exit, raise, emit, mbind.
        cbn [wrote becomes instance stdin stdout history]. rewrite Hget'. reflexivity.
      * right. exists i, g1. split; [exact Hi|]. split; [exact Hfree|].
        split; [exact Hins|]. right.
        split; [rewrite is_win_total by assumption; rewrite Hwon; reflexivity|].
        split; [reflexivity|]. cbn [instance history]. split; [reflexivity|].
        split; [rewrite Hhist; reflexivity|].
        exists sym'. split; [exact Hget'|]. apply last_snoc.
    + eexists. exists (Ret tt). split.
      * rewrite (mbind_ret _ _ _ _ _
                   (call_mut_run (fun g => Ret (update_player_count g)) _ _ eq_refl)).
        cbv beta.
        apply (call_mut_run (fun g => Ret (update_turn g 1))). reflexivity.
      * right. exists i, g1. split; [exact Hi|]. split; [exact Hfree|].
        split; [exact Hins|]. left.
        split; [rewrite is_win_total by assumption; rewrite Hwon; reflexivity|].
        split; [reflexivity|]. cbn [becomes instance history stdin stdout].
        split; [reflexivity|].
        rewrite Hhist, <- !app_assoc. reflexivity.
Qed.

Lemma after_placement (g g1 : Game_Ops) (i : Z) :
  at_rest g -> turnCount g < 9 -> 0 <= i <= 8 ->
  is_in_board_state g i = Ret false ->
  insert_index g i = Ret g1 ->
  turnCount g1 = turnCount g /\
  playerCount g1 = playerCount g /\
  marks g1 = marks g + 1 /\
  sound g1 /\
  sound (update_player_count g1) /\
  (is_win g1 = Ret false -> at_rest (update_turn (update_player_count g1) 1)).
Proof.
  intros Hrest Hlt Hi Hfree Hins.
  pose proof (at_rest_nonneg g Hrest) as Hnn.
  destruct (placement g i Hrest Hi Hfree)
    as (g1' & Hins' & Hwf1 & Hp1 & Htc1 & N0 & N1 & Hdis1 & Hmarks & Hother).
  rewrite Hins in Hins'. injection Hins' as <-.
  destruct Hrest as (Hwf & _ & _ & _ & Htc & _).
  assert (Hsound : sound g1).
  { split; [exact (proj1 Hwf1)|]. split; [exact Hdis1|]. split; [lia|]. right. lia. }
  split; [exact Htc1|]. split; [exact Hp1|]. split; [exact Hmarks|].
  split; [exact Hsound|]. split; [exact Hsound|].
  intros Hnowin. pose proof (is_win_false g1 Hwf1 Hnowin) as Hcur.
  unfold at_rest, well_formed, disjoint, marks, state_of in *.
  cbn [update_turn update_player_count boardStates playerCount turnCount].
  split.
  { split; [exact (proj1 Hwf1)|].
    pose proof (Z.mod_pos_bound (playerCount g1 + 1) 2 ltac:(lia)). lia. }
  split; [exact N0|]. split; [exact N1|]. split; [exact Hdis1|].
  split; [lia|]. split; [lia|].
  rewrite Hp1 in Hcur.
  destruct (proj2 Hwf) as [E | E]; rewrite E in Hcur, Hother.
  - split; [exact Hcur | exact Hother].
  - split; [exact Hother | exact Hcur].
Qed.

Lemma head_app_some {A : Type} (l ext : list A) (x : A) :
  head l = Some x -> head (l ++ ext) = Some x.
Proof. destruct l; simpl; [discriminate | trivial]. Qed.

Lemma last_three {A : Type} (l : list A) (a b c : A) :
  last (l ++ [a; b; c]) = Some c.
Proof. change [a; b; c] with ([a; b] ++ [c]). rewrite app_assoc. apply last_snoc. Qed.

(** ** The game loop *)

Lemma game_loop_ending (symbols : list string) :
  length symbols = 2%nat ->
  forall (n : nat) (w : World),
    at_rest (instance w) -> logged w ->
    (turns_left (instance w) <= n)%nat ->
    exists w' r,
      while_do n (call (fun g => Ret (turnCount g <? 9))) (turn symbols) w = (w', r) /\
      logged w' /\ ending w' r.
Proof.
  intros Hsym. induction n as [|n IH]; intros w Hrest Hlog Hfuel.
  - unfold turns_left in Hfuel.
    assert (Hge : 9 <= turnCount (instance w)) by lia.
    exists w, (Ret tt). split; [|split; [exact Hlog|]].
    + cbn [while_do]. rewrite (mbind_ret _ _ w w false); [reflexivity|].
      rewrite call_run. destruct (Z.ltb_spec (turnCount (instance w)) 9); [lia | reflexivity].
    + apply ended_full; [exact Hrest|].
      destruct Hrest as (_ & _ & _ & _ & _ & Hle & _). lia.
  - destruct (Z.ltb_spec (turnCount (instance w)) 9) as [Hlt | Hge].
    2:{ exists w, (Ret tt). split; [|split; [exact Hlog|]].
        - cbn [while_do]. rewrite (mbind_ret _ _ w w false); [reflexivity|].
          rewrite call_run.
          destruct (Z.ltb_spec (turnCount (instance w)) 9); [lia | reflexivity].
        - apply ended_full; [exact Hrest|].
          destruct Hrest as (_ & _ & _ & _ & _ & Hle & _). lia. }
    assert (Hcond : call (fun g => Ret (turnCount g <? 9)) w = (w, Ret true)).
    { rewrite call_run. destruct (Z.ltb_spec (turnCount (instance w)) 9); [reflexivity | lia]. }
    cbn [while_do]. rewrite (mbind_ret _ _ _ _ _ Hcond).
    destruct (turn_outcome symbols w Hsym Hrest) as (w1 & r & Hturn & Hcases).
    destruct Hlog as (Hall & Hlast & Hhead).
    destruct Hcases as [(-> & Hinst & Hhist & prompt & Hprompt)
                       | (i & g1 & Hi & Hfree & Hins & Hcases)].
    + exists w1, (Raise EOFError). split; [apply mbind_raise; exact Hturn|]. split.
      * rewrite <- Hhist in Hall, Hlast, Hhead. rewrite <- Hinst in Hlast.
        split; [exact Hall | split; [exact Hlast | exact Hhead]].
      * apply (ended_eof w1 prompt); rewrite ?Hinst; assumption.
    + destruct (after_placement (instance w) g1 i Hrest Hlt Hi Hfree Hins)
        as (Htc1 & Hp1 & Hmarks & Hs1 & Hs2 & Hnext).
      destruct Hcases as [(Hnowin & -> & Hinst & Hhist)
                         | (Hwon & -> & Hinst & Hhist & sym & _ & Hsays)].
      * specialize (Hnext Hnowin).
        destruct (IH w1) as (w' & r & Hloop & Hlog' & Hend).
        -- rewrite Hinst. exact Hnext.
        -- split; [|split; [rewrite Hhist, Hinst; apply last_three
                             |rewrite Hhist; apply head_app_some; exact Hhead]].
           rewrite Hhist. apply Forall_app. split; [exact Hall|].
           constructor; [exact Hs1|]. constructor; [exact Hs2|].
           constructor; [apply at_rest_sound; exact Hnext | constructor].
        -- rewrite Hinst. unfold turns_left in *.
           cbn [update_turn update_player_count turnCount]. lia.
        -- exists w', r. split; [|split; assumption].
           rewrite (mbind_ret _ _ _ _ _ Hturn). exact Hloop.
      * exists w1, (Raise SystemExit). split; [apply mbind_raise; exact Hturn|]. split.
        -- split; [|split; [rewrite Hhist, Hinst; apply last_snoc
                             |rewrite Hhist; apply head_app_some; exact Hhead]].
           rewrite Hhist. apply Forall_app. split; [exact Hall|].
           constructor; [assumption | constructor].
        -- pose proof (at_rest_count _ Hrest) as Hcount.
           apply (ended_won w1 sym); rewrite ?Hinst; try assumption; lia.
Qed.

(** ** The whole program *)

Lemma at_rest_init : at_rest init.
Proof.
  unfold at_rest, well_formed, nine_bit, disjoint, marks, no_win.
  change (state_of init 0) with 0. change (state_of init 1) with 0.
  split; [split; [reflexivity | left; reflexivity]|].
  split; [lia|]. split; [lia|]. split; [reflexivity|].
  split; [reflexivity|]. split; [simpl; lia|].
  split; intros w Hin; rewrite Z.land_0_l; intros <-; simpl in Hin;
    intuition discriminate.
Qed.

Lemma frontend_pre_game_run (w : World) (a b : string) (rest : list string) :
  stdin w = a :: b :: rest ->
  frontend_pre_game w =
  (reading (wrote w [Prompt "Player 0 symbol: "; Prompt "Player 1 symbol: "]) rest,
   Ret [a; b]).
Proof.
  intros H. unfold frontend_pre_game, input, emit, mret, mbind.
  cbn [instance stdin stdout history]. rewrite H.
  unfold reading, wrote. cbn [instance stdin stdout history].
  rewrite <- app_assoc. reflexivity.
Qed.

Lemma frontend_pre_game_eof (w : World) :
  (length (stdin w) < 2)%nat ->
  exists w' prompt,
    frontend_pre_game w = (w', Raise EOFError) /\
    instance w' = instance w /\ history w' = history w /\
    last (stdout w') = Some (Prompt prompt).
Proof.
  intros H. unfold frontend_pre_game, input, emit, mret, mbind.
  cbn [instance stdin stdout history].
  destruct (stdin w) as [|a [|b rest]]; [| |simpl in H; lia];
    cbn [instance stdin stdout history];
    eexists; eexists; (split; [reflexivity|]);
    cbn [instance stdin stdout history];
    (split; [reflexivity|]); (split; [reflexivity|]); apply last_snoc.
Qed.

Lemma run_ending (lines : list string) :
  exists w' r,
    run lines = (w', r) /\ logged w' /\ ending w' r /\
    (r = Ret tt -> announced_draw w').
Proof.
  unfold run, main.
  assert (Hlog0 : logged (start lines)).
  { split; [|split; reflexivity]. cbn [start history].
    constructor; [apply at_rest_sound, at_rest_init | constructor]. }
  destruct (frontend_draw_board_total [" "; " "] (start lines) eq_refl eq_refl)
    as (data0 & Hdraw0); [cbv; split; [discriminate | reflexivity] ..|].
  rewrite (mbind_ret _ _ _ _ _ Hdraw0). cbv beta.
  set (w1 := wrote (start lines) [Clear; Print (render data0)]).
  destruct (le_lt_dec 2 (length (stdin w1))) as [Hlen | Hlen].
  - destruct (stdin w1) as [|a [|b rest]] eqn:Hin; try (simpl in Hlen; lia).
    rewrite (mbind_ret _ _ _ _ _ (frontend_pre_game_run w1 a b rest Hin)). cbv beta.
    set (w2 := reading _ rest).
    destruct (game_loop_ending [a; b] eq_refl (turns_left (instance w2)) w2)
      as (w3 & r & Hloop & Hlog3 & Hend); [exact at_rest_init | exact Hlog0 | lia |].
    change (game_loop [a; b] w2 = (w3, r)) in Hloop.
    destruct Hend as [Hrest Hnine | sym Hs Hwon Hmarks Hlt Hsays | prompt Hrest Hlt Hsays].
    + rewrite (mbind_ret _ _ _ _ _ Hloop). cbv beta.
      pose proof Hrest as (Hwf & N0 & N1 & _).
      destruct (frontend_draw_board_total [a; b] w3 eq_refl (proj1 Hwf) N0 N1)
        as (data & Hdraw).
      rewrite (mbind_ret _ _ _ _ _ Hdraw). cbv beta.
      eexists. exists (Ret tt). split; [reflexivity|].
      split; [exact Hlog3|]. split; [apply ended_full; assumption|].
      intros _. apply last_snoc.
    + exists w3, (Raise SystemExit).
      split; [apply mbind_raise; exact Hloop|]. split; [exact Hlog3|].
      split; [apply (ended_won w3 sym); assumption | discriminate].
    + exists w3, (Raise EOFError).
      split; [apply mbind_raise; exact Hloop|]. split; [exact Hlog3|].
      split; [apply (ended_eof w3 prompt); assumption | discriminate].
  - destruct (frontend_pre_game_eof w1 Hlen) as (w2 & prompt & Hpre & Hinst & Hhist & Hsays).
    exists w2, (Raise EOFError).
    split; [apply mbind_raise; exact Hpre|]. split.
    + split; [rewrite Hhist; exact (proj1 Hlog0) | rewrite Hhist, Hinst; split; reflexivity].
    + split; [|discriminate].
      apply (ended_eof w2 prompt); rewrite ?Hinst; try assumption.
      * exact at_rest_init.
      * simpl. lia.
Qed.

(** C2: whatever is typed, every value the instance takes while the
    program runs, from the initial one (both board-states 0) to the one at
    the end (draw, win, or end of input), holds two board-states whose AND
    is 0. *)
Theorem masks_always_disjoint (lines : list string) :
  let w := fst (run lines) in
  Forall (fun g => exists m0 m1, boardStates g = [m0; m1] /\ Z.land m0 m1 = 0)
         (history w) /\
  head (history w) = Some init /\
  last (history w) = Some (instance w) /\
  boardStates init = [0; 0].
Proof.
  destruct (run_ending lines) as (w' & r & Hrun & (Hall & Hlast & Hhead) & _).
  rewrite Hrun. cbn [fst].
  split; [|split; [exact Hhead | split; [exact Hlast | reflexivity]]].
  eapply Forall_impl; [exact Hall|].
  intros g (Hlen & Hdis & _).
  destruct (length_two _ Hlen) as (m0 & m1 & Hbs).
  exists m0, m1. split; [exact Hbs|].
  unfold disjoint, state_of in Hdis. rewrite Hbs in Hdis. exact Hdis.
Qed.

(** C4, as stated, fails: in the game X: 0, O: 3, X: 1, O: 4, X: 2 the
    fifth placement wins and the program exits with five marks on the board
    and a turn counter of 4. *)
Lemma turn_counter_misses_winning_placement :
  let w := fst (run ["X"; "O"; "0"; "3"; "1"; "4"; "2"]) in
  snd (run ["X"; "O"; "0"; "3"; "1"; "4"; "2"]) = Raise SystemExit /\
  marks (instance w) = 5 /\
  turnCount (instance w) = 4 /\
  turnCount (instance w) <> marks (instance w).
Proof. vm_compute. repeat split; try reflexivity. discriminate. Qed.

Lemma won_is_not_draw (sym : string) :
  Print ("Player " +:+ sym +:+ " won!") <> Print "It's a draw!".
Proof. simpl. discriminate. Qed.

(** C4, amended: the turn counter is incremented exactly once by a turn
    whose placement does not win and not at all by a winning placement (the
    program exits first).  So, whatever is typed, every value the instance
    takes has a turn counter in [0,9] that equals the number of marks or is
    one less; it equals the number of marks when the program ends in a draw
    or at the end of the input, and is one less when it ends with a win.
    The program always ends in one of these three ways, and it ends
    normally, the last thing written being the draw message, exactly when
    the turn counter is 9; then nine marks are on the board and neither
    board-state covers a winning line. *)
Theorem turn_counter_and_draw (lines : list string) :
  exists w' r,
    run lines = (w', r) /\
    Forall (fun g => 0 <= turnCount g <= 9 /\
                     (marks g = turnCount g \/ marks g = turnCount g + 1))
           (history w') /\
    last (history w') = Some (instance w') /\
    (r = Ret tt \/ r = Raise SystemExit \/ r = Raise EOFError) /\
    (r = Ret tt <-> turnCount (instance w') = 9) /\
    (r = Ret tt <-> announced_draw w') /\
    (r = Ret tt ->
       marks (instance w') = 9 /\
       no_win (state_of (instance w') 0) /\ no_win (state_of (instance w') 1)) /\
    (r = Raise SystemExit ->
       is_win (instance w') = Ret true /\
       marks (instance w') = turnCount (instance w') + 1) /\
    (r = Raise EOFError -> marks (instance w') = turnCount (instance w')) /\
    (forall symbols w w1 r1,
       length symbols = 2%nat -> at_rest (instance w) ->
       turnCount (instance w) < 9 ->
       turn symbols w = (w1, r1) ->
       (r1 = Ret tt /\
        turnCount (instance w1) = turnCount (instance w) + 1 /\
        marks (instance w1) = marks (instance w) + 1) \/
       (r1 = Raise SystemExit /\
        turnCount (instance w1) = turnCount (instance w) /\
        marks (instance w1) = marks (instance w) + 1) \/
       (r1 = Raise EOFError /\ instance w1 = instance w)).
Proof.
  destruct (run_ending lines) as (w' & r & Hrun & (Hall & Hlast & _) & Hend & Hdraw).
  exists w', r. split; [exact Hrun|].
  split.
  { eapply Forall_impl; [exact Hall|]. intros g (_ & _ & Hb & Hm). split; assumption. }
  split; [exact Hlast|].
  assert (Hper : forall symbols w w1 r1,
             length symbols = 2%nat -> at_rest (instance w) ->
             turnCount (instance w) < 9 ->
             turn symbols w = (w1, r1) ->
             (r1 = Ret tt /\
              turnCount (instance w1) = turnCount (instance w) + 1 /\
              marks (instance w1) = marks (instance w) + 1) \/
             (r1 = Raise SystemExit /\
              turnCount (instance w1) = turnCount (instance w) /\
              marks (instance w1) = marks (instance w) + 1) \/
             (r1 = Raise EOFError /\ instance w1 = instance w)).
  { intros symbols w w1 r1 Hsym Hrest Hlt Hturn.
    destruct (turn_outcome symbols w Hsym Hrest) as (w2 & r2 & Hturn2 & Hcases).
    rewrite Hturn in Hturn2. injection Hturn2 as <- <-.
    destruct Hcases as [(-> & Hinst & _) | (i & g1 & Hi & Hfree & Hins & Hcases)].
    - right. right. split; [reflexivity | exact Hinst].
    - destruct (after_placement (instance w) g1 i Hrest Hlt Hi Hfree Hins)
        as (Htc1 & _ & Hmarks & _).
      destruct Hcases as [(_ & -> & Hinst & _) | (_ & -> & Hinst & _)]; rewrite Hinst.
      + left. split; [reflexivity|]. split; [|exact Hmarks].
        cbn [update_turn update_player_count turnCount]. lia.
      + right. left. split; [reflexivity|]. split; [exact Htc1 | exact Hmarks]. }
  destruct Hend as [Hrest Hnine | sym Hs Hwon Hmarks Hlt Hsays | prompt Hrest Hlt Hsays].
  - pose proof (at_rest_count _ Hrest) as Hcount.
    destruct Hrest as (_ & _ & _ & _ & _ & _ & W0 & W1).
    split; [left; reflexivity|].
    split; [split; trivial|].
    split; [split; [exact Hdraw | trivial]|].
    split; [intros _; split; [lia | split; assumption]|].
    split; [discriminate|]. split; [discriminate | exact Hper].
  - split; [right; left; reflexivity|].
    split; [split; [discriminate | lia]|].
    split.
    { split; [discriminate|]. unfold announced_draw. rewrite Hsays.
      intros E. pose proof (won_is_not_draw sym) as Hne. congruence. }
    split; [discriminate|].
    split; [intros _; split; assumption|]. split; [discriminate | exact Hper].
  - pose proof (at_rest_count _ Hrest) as Hcount.
    split; [right; right; reflexivity|].
    split; [split; [discriminate | lia]|].
    split.
    { split; [discriminate|]. unfold announced_draw. rewrite Hsays. discriminate. }
    split; [discriminate|].
    split; [discriminate|]. split; [intros _; lia | exact Hper].
Qed.

Lemma turn_counter_and_draw_witness :
  exists w' r,
    run ["X"; "O"; "0"; "1"; "2"; "4"; "3"; "5"; "7"; "6"; "8"] = (w', r) /\
    (r = Ret tt <-> turnCount (instance w') = 9).
Proof.
  destruct (turn_counter_and_draw ["X"; "O"; "0"; "1"; "2"; "4"; "3"; "5"; "7"; "6"; "8"])
    as (w' & r & Hrun & _ & _ & _ & Hiff & _).
  exists w', r. split; [exact Hrun | exact Hiff].
Defined.

Lemma py_int_str_cell (i : Z) : 0 <= i <= 8 -> py_int (py_str i) = Ret i.
Proof.
  intros Hi.
  assert (Hc : i = 0 \/ i = 1 \/ i = 2 \/ i = 3 \/ i = 4 \/ i = 5 \/ i = 6 \/ i = 7 \/ i = 8)
    by lia.
  repeat (destruct Hc as [-> | Hc]; [reflexivity|]). subst. reflexivity.
Qed.

Lemma py_str_cell_inj (i j : Z) :
  0 <= i <= 8 -> 0 <= j <= 8 -> py_str i = py_str j -> i = j.
Proof.
  intros Hi Hj E.
  pose proof (py_int_str_cell i Hi) as Ei. rewrite E, (py_int_str_cell j Hj) in Ei.
  injection Ei as ->. reflexivity.
Qed.

(** The numeral of a free cell is never refused. *)
Lemma free_cell_not_refused (g : Game_Ops) (i : Z) (msg : string) :
  0 <= i <= 8 ->
  Z.testbit (state_of g 0) i = false -> Z.testbit (state_of g 1) i = false ->
  ~ refusal g (py_str i) msg.
Proof.
  intros Hi B0 B1 Href.
  inversion Href as [line Hno Hline | j Hj Htaken Hline]; subst.
  - exact (Hno i Hi eq_refl).
  - apply py_str_cell_inj in Hline; [|assumption|assumption]. subst j.
    destruct Htaken; congruence.
Qed.

(** A turn, with what it reads: every line before the accepted one is
    refused, and the input runs out only if every line is refused. *)
Lemma turn_outcome_lines (symbols : list string) (w : World) :
  length symbols = 2%nat -> at_rest (instance w) ->
  exists w' r refused,
    turn symbols w = (w', r) /\
    Forall (fun lm => refusal (instance w) (fst lm) (snd lm)) refused /\
    ((r = Raise EOFError /\ instance w' = instance w /\
      stdin w = map fst refused /\ stdin w' = []) \/
     (exists i g1,
        stdin w = map fst refused ++ py_str i :: stdin w' /\
        0 <= i <= 8 /\
        is_in_board_state (instance w) i = Ret false /\
        insert_index (instance w) i = Ret g1 /\
        ((is_win g1 = Ret false /\ r = Ret tt /\
          instance w' = update_turn (update_player_count g1) 1) \/
         (is_win g1 = Ret true /\ r = Raise SystemExit /\ instance w' = g1)))).
Proof.
  intros Hsym Hrest.
  pose proof Hrest as (Hwf & N0 & N1 & _).
  destruct (frontend_draw_board_total symbols w Hsym (proj1 Hwf) N0 N1) as (data & Hdraw).
  unfold turn. rewrite (mbind_ret _ _ _ _ _ Hdraw). cbv beta.
  set (w1 := wrote w [Clear; Print (render data)]).
  destruct (symbols_getitem symbols (instance w1) Hsym Hwf) as (sym & Hget).
  destruct (length_two _ (proj1 Hwf)) as (m0 & m1 & Hbs).
  destruct (frontend_ask_input_outcome symbols sym m0 m1 (stdin w1) w1 eq_refl Hbs Hget)
    as (refused & w2 & r & Hask & Hinst & _ & Href & _ & Hend).
  change (instance w1) with (instance w) in *.
  change (stdin w1) with (stdin w) in *.
  destruct Hend as [(-> & Hin & Hnil) | (i & -> & Hi & Hfree & _ & _ & Hin)].
  - exists w2, (Raise EOFError), refused. split; [apply mbind_raise; exact Hask|].
    split; [exact Href|]. left.
    split; [reflexivity|]. split; [exact Hinst|]. split; [exact Hin | exact Hnil].
  - rewrite (mbind_ret _ _ _ _ _ Hask). cbv beta.
    destruct (placement (instance w) i Hrest Hi Hfree)
      as (g1 & Hins & Hwf1 & _ & _ & N0' & N1' & _).
    assert (Hins2 : insert_index (instance w2) i = Ret g1) by (rewrite Hinst; exact Hins).
    rewrite (mbind_ret _ _ _ _ _
               (call_mut_run (fun g => insert_index g i) w2 g1 Hins2)). cbv beta.
    rewrite (mbind_ret _ _ (becomes w2 g1) (becomes w2 g1)
               (existsb (fun x => Z.land (state_of g1 (playerCount g1)) x =? x)
                        win_conditions)).
    2:{ rewrite call_run. cbn [becomes instance]. rewrite is_win_total by assumption.
        reflexivity. }
    cbv beta.
    destruct (existsb _ win_conditions) eqn:Hwon.
    + destruct (frontend_draw_board_total symbols (becomes w2 g1) Hsym (proj1 Hwf1) N0' N1')
        as (data' & Hdraw').
      destruct (symbols_getitem symbols g1 Hsym Hwf1) as (sym' & Hget').
      eexists. exists (Raise SystemExit), refused. split.
      * rewrite (mbind_ret _ _ _ _ _ Hdraw'). cbv beta.
        unfold call at 1. unfold get_instance, lift, print, exit, raise, emit, mbind.
        cbn [wrote becomes instance stdin stdout history]. rewrite Hget'. reflexivity.
      * split; [exact Href|]. right. exists i, g1.
        cbn [instance stdin]. split; [exact Hin|].
        split; [exact Hi|]. split; [exact Hfree|]. split; [exact Hins|]. right.
        split; [rewrite is_win_total by assumption; rewrite Hwon; reflexivity|].
        split; reflexivity.
    + eexists. exists (Ret tt), refused. split.
      * rewrite (mbind_ret _ _ _ _ _
                   (call_mut_run (fun g => Ret (update_player_count g)) _ _ eq_refl)).
        cbv beta.
        apply (call_mut_run (fun g => Ret (update_turn g 1))). reflexivity.
      * split; [exact Href|]. right. exists i, g1.
        cbn [becomes instance stdin]. split; [exact Hin|].
        split; [exact Hi|]. split; [exact Hfree|]. split; [exact Hins|]. left.
        split; [rewrite is_win_total by assumption; rewrite Hwon; reflexivity|].
        split; reflexivity.
Qed.

(** C6: for a player index p in {0,1}, [update_player_count] turns p into
    1 - p and leaves board-states and turn counter alone, so applying it
    twice gives the instance back; whatever the index was, the new one is 0
    or 1.  [update_turn(1)] adds exactly 1 to the turn counter and changes
    nothing else.  In the game loop both are applied after each placement
    that does not win.  A turn taken between two turns of a game reads
    lines until one is the numeral of a free cell i, refusing those before
    it, and places the mark there; if that does not win, the turn returns
    normally and the instance is exactly [update_turn(1)] of
    [update_player_count] of the instance the placement produced (player
    index toggled, turn counter one more, board-states as placed); if it
    wins, neither is applied.  The turn fails to place only when the input
    runs out with every line of it refused; in particular, when the next
    line is the numeral of a free cell and placing there does not win, the
    turn returns normally with both updates applied and the rest of the
    input left to read. *)
Theorem advance_turn (g : Game_Ops) :
  playerCount g = 0 \/ playerCount g = 1 ->
  playerCount (update_player_count g) = 1 - playerCount g /\
  boardStates (update_player_count g) = boardStates g /\
  turnCount (update_player_count g) = turnCount g /\
  update_player_count (update_player_count g) = g /\
  (forall g' : Game_Ops,
     playerCount (update_player_count g') = 0 \/
     playerCount (update_player_count g') = 1) /\
  update_turn g 1 = {| boardStates := boardStates g;
                       playerCount := playerCount g;
                       turnCount := turnCount g + 1 |} /\
  (forall symbols w,
     instance w = g -> length symbols = 2%nat -> at_rest g ->
     exists w' r refused,
       turn symbols w = (w', r) /\
       Forall (fun lm => refusal g (fst lm) (snd lm)) refused /\
       ((r = Raise EOFError /\ instance w' = g /\
         stdin w = map fst refused /\ stdin w' = []) \/
        (exists i g1,
           stdin w = map fst refused ++ py_str i :: stdin w' /\
           0 <= i <= 8 /\
           is_in_board_state g i = Ret false /\
           insert_index g i = Ret g1 /\
           ((is_win g1 = Ret false /\ r = Ret tt /\
             instance w' = update_turn (update_player_count g1) 1 /\
             boardStates (instance w') = boardStates g1 /\
             playerCount (instance w') = 1 - playerCount g /\
             turnCount (instance w') = turnCount g + 1) \/
            (is_win g1 = Ret true /\ r = Raise SystemExit /\ instance w' = g1))))) /\
  (forall symbols w i rest g1,
     instance w = g -> length symbols = 2%nat -> at_rest g ->
     stdin w = py_str i :: rest -> 0 <= i <= 8 ->
     is_in_board_state g i = Ret false ->
     insert_index g i = Ret g1 ->
     is_win g1 = Ret false ->
     exists w',
       turn symbols w = (w', Ret tt) /\
       instance w' = update_turn (update_player_count g1) 1 /\
       playerCount (instance w') = 1 - playerCount g /\
       turnCount (instance w') = turnCount g + 1 /\
       stdin w' = rest).
Proof.
  intros Hp.
  split; [destruct Hp as [E | E]; cbn [update_player_count playerCount];
          rewrite E; reflexivity|].
  split; [reflexivity|]. split; [reflexivity|].
  split.
  { destruct g as [bs p tc]. cbn [playerCount] in Hp.
    unfold update_player_count. cbn [boardStates playerCount turnCount].
    destruct Hp as [-> | ->]; reflexivity. }
  split.
  { intros g'. cbn [update_player_count playerCount].
    pose proof (Z.mod_pos_bound (playerCount g' + 1) 2 ltac:(lia)). lia. }
  split; [reflexivity|].
  assert (Hadv : forall w g1 i,
            instance w = g -> at_rest g -> 0 <= i <= 8 ->
            is_in_board_state g i = Ret false -> insert_index g i = Ret g1 ->
            playerCount (update_turn (update_player_count g1) 1) = 1 - playerCount g /\
            turnCount (update_turn (update_player_count g1) 1) = turnCount g + 1).
  { intros w g1 i Hw Hrest Hi Hfree Hins.
    destruct (placement g i Hrest Hi Hfree) as (g1' & Hins' & _ & Hp1 & Htc1 & _).
    rewrite Hins in Hins'. injection Hins' as <-.
    cbn [update_turn update_player_count playerCount turnCount].
    rewrite Hp1, Htc1. split; [|reflexivity].
    destruct Hp as [E | E]; rewrite E; reflexivity. }
  split.
  - intros symbols w Hw Hsym Hrest. subst g.
    destruct (turn_outcome_lines symbols w Hsym Hrest)
      as (w' & r & refused & Hturn & Href & Hcases).
    exists w', r, refused. split; [exact Hturn|]. split; [exact Href|].
    destruct Hcases as [Heof | (i & g1 & Hin & Hi & Hfree & Hins & Hcases)].
    + left. exact Heof.
    + right. exists i, g1. split; [exact Hin|]. split; [exact Hi|].
      split; [exact Hfree|]. split; [exact Hins|].
      destruct Hcases as [(Hnowin & Hr & Hinst) | Hwon]; [left | right; exact Hwon].
      split; [exact Hnowin|]. split; [exact Hr|]. split; [exact Hinst|].
      rewrite Hinst. split; [reflexivity|].
      exact (Hadv w g1 i eq_refl Hrest Hi Hfree Hins).
  - intros symbols w i rest g1 Hw Hsym Hrest Hline Hi Hfree Hins Hnowin. subst g.
    destruct (turn_outcome_lines symbols w Hsym Hrest)
      as (w' & r & refused & Hturn & Href & Hcases).
    assert (Hbits : Z.testbit (state_of (instance w) 0) i = false /\
                    Z.testbit (state_of (instance w) 1) i = false).
    { destruct (well_formed_inv _ (proj1 Hrest)) as (m0 & m1 & p & tc & Hg & _).
      rewrite Hg in *. rewrite is_in_board_state_two in Hfree by lia.
      injection Hfree as Hfree. apply orb_false_iff in Hfree.
      rewrite state_of_0, state_of_1. exact Hfree. }
    assert (Hhead : forall lm rest', refused = lm :: rest' -> False).
    { intros lm rest' ->. rewrite Hline in Hcases.
      inversion Href as [|? ? Hlm _]; subst.
      assert (Hfst : fst lm = py_str i).
      { destruct Hcases as [(_ & _ & Hin & _) | (j & g2 & Hin & _)];
          cbn [map app] in Hin; injection Hin as Hin _; symmetry; exact Hin. }
      rewrite Hfst in Hlm.
      exact (free_cell_not_refused _ i _ Hi (proj1 Hbits) (proj2 Hbits) Hlm). }
    destruct refused as [|lm rest']; [|exfalso; exact (Hhead lm rest' eq_refl)].
    rewrite Hline in Hcases. cbn [map app] in Hcases.
    destruct Hcases as [(_ & _ & Hin & _) | (j & g2 & Hin & Hj & _ & Hins2 & Hcases)];
      [discriminate Hin|].
    injection Hin as Hij Hrest'.
    apply py_str_cell_inj in Hij; [|assumption|assumption]. subst j.
    rewrite Hins in Hins2. injection Hins2 as <-.
    destruct Hcases as [(_ & -> & Hinst) | (Hwon & _)];
      [|rewrite Hnowin in Hwon; discriminate Hwon].
    exists w'. split; [exact Hturn|]. split; [exact Hinst|].
    rewrite Hinst.
    destruct (Hadv w g1 i eq_refl Hrest Hi Hfree Hins) as [Hpl Htc].
    split; [exact Hpl|]. split; [exact Htc | symmetry; exact Hrest'].
Qed.

Lemma advance_turn_witness :
  playerCount (update_player_count init) = 1 /\
  update_player_count (update_player_count init) = init /\
  turnCount (update_turn init 1) = 1 /\
  exists w',
    turn ["X"; "O"] (start ["4"; "0"]) = (w', Ret tt) /\
    instance w' = {| boardStates := [16; 0]; playerCount := 1; turnCount := 1 |} /\
    stdin w' = ["0"].
Proof.
  destruct (advance_turn init (or_introl eq_refl))
    as (Htoggle & _ & _ & Htwice & _ & Hturn & _ & Hplace).
  split; [exact Htoggle|]. split; [exact Htwice|].
  split; [rewrite Hturn; reflexivity|].
  destruct (Hplace ["X"; "O"] (start ["4"; "0"]) 4 ["0"]
              {| boardStates := [16; 0]; playerCount := 0; turnCount := 0 |}
              eq_refl eq_refl at_rest_init eq_refl ltac:(lia) eq_refl eq_refl eq_refl)
    as (w' & Hrun & Hinst & _ & _ & Hleft).
  exists w'. split; [exact Hrun|]. split; [exact Hinst | exact Hleft].
Defined.

(** * Further properties of the code *)

(** ** The methods at the edges of their domain *)

Lemma nine_bit_high (m i : Z) : nine_bit m -> 9 <= i -> Z.testbit m i = false.
Proof.
  unfold nine_bit. intros Hm Hi.
  destruct (Z.eq_dec m 0) as [-> | NE]; [apply Z.bits_0|].
  apply Z.bits_above_log2; [lia|].
  assert (Z.log2 m < 9) by (apply Z.log2_lt_pow2; [lia | change (2 ^ 9) with 512; lia]).
  lia.
Qed.

(** X1: [is_in_board_state] checks no bounds.  For an index i >= 0 it
    answers whether some board-state has bit i set; so on nine-bit
    board-states every index from 9 on is reported free.  A negative index
    raises [ValueError] as soon as there is a board-state to test. *)
Theorem is_in_board_state_any_index (g : Game_Ops) (i : Z) :
  (0 <= i ->
   is_in_board_state g i = Ret (existsb (fun m => Z.testbit m i) (boardStates g))) /\
  (9 <= i -> Forall nine_bit (boardStates g) -> is_in_board_state g i = Ret false) /\
  (i < 0 -> boardStates g <> [] -> is_in_board_state g i = Raise ValueError).
Proof.
  split; [apply is_in_board_state_bits|]. split.
  - intros Hi Hnine. rewrite is_in_board_state_bits by lia. f_equal.
    induction Hnine as [|m l Hm _ IH]; simpl; [reflexivity|].
    rewrite (nine_bit_high m i Hm Hi). exact IH.
  - intros Hi Hne. unfold is_in_board_state.
    destruct (boardStates g) as [|m l]; [contradiction|].
    simpl. unfold py_lshift.
    destruct (Z.ltb_spec i 0); [reflexivity | lia].
Qed.

Lemma is_in_board_state_any_index_witness :
  is_in_board_state {| boardStates := [20; 40]; playerCount := 0; turnCount := 4 |} 9
  = Ret false /\
  is_in_board_state {| boardStates := [20; 40]; playerCount := 0; turnCount := 4 |} (-1)
  = Raise ValueError.
Proof.
  destruct (is_in_board_state_any_index
              {| boardStates := [20; 40]; playerCount := 0; turnCount := 4 |} 9)
    as (_ & Hhigh & _).
  destruct (is_in_board_state_any_index
              {| boardStates := [20; 40]; playerCount := 0; turnCount := 4 |} (-1))
    as (_ & _ & Hneg).
  split.
  - apply Hhigh; [lia|]. repeat constructor; unfold nine_bit; lia.
  - apply Hneg; [lia | discriminate].
Defined.

(** X2: [insert_index] raises [IndexError] when the player counter names
    no board-state, whatever the index is, and [ValueError] for a negative
    index when the player counter is valid; in both cases no new instance
    value is produced. *)
Theorem insert_index_errors (g : Game_Ops) (i : Z) :
  (playerCount g < - Z.of_nat (length (boardStates g)) \/
   Z.of_nat (length (boardStates g)) <= playerCount g ->
   insert_index g i = Raise IndexError) /\
  (well_formed g -> i < 0 -> insert_index g i = Raise ValueError).
Proof.
  split.
  - intros Hp. unfold insert_index, py_getitem, py_index.
    destruct (Z.ltb_spec (playerCount g) 0) as [Hneg | Hpos].
    + destruct (Z.ltb_spec (playerCount g + Z.of_nat (length (boardStates g))) 0);
        [reflexivity | lia].
    + destruct (Z.ltb_spec (playerCount g) 0); [lia|].
      destruct (Z.leb_spec (Z.of_nat (length (boardStates g))) (playerCount g));
        [reflexivity | lia].
  - intros Hwf Hi.
    destruct (well_formed_inv g Hwf) as (m0 & m1 & p & tc & -> & Hp).
    unfold insert_index. cbn [boardStates playerCount].
    rewrite py_getitem_two by assumption. cbn [rbind]. unfold py_lshift.
    destruct (Z.ltb_spec i 0); [reflexivity | lia].
Qed.

Lemma insert_index_errors_witness :
  insert_index {| boardStates := [20; 40]; playerCount := 2; turnCount := 4 |} 3
  = Raise IndexError /\
  insert_index {| boardStates := [20; 40]; playerCount := 1; turnCount := 4 |} (-3)
  = Raise ValueError.
Proof.
  split.
  - apply (proj1 (insert_index_errors
                    {| boardStates := [20; 40]; playerCount := 2; turnCount := 4 |} 3)).
    right. simpl. lia.
  - apply (proj2 (insert_index_errors
                    {| boardStates := [20; 40]; playerCount := 1; turnCount := 4 |} (-3))).
    + split; [reflexivity | right; reflexivity].
    + lia.
Defined.

(** X3: on a well-formed instance, placing twice at the same index is the
    same as placing once, and two placements by the same player give the
    same instance in either order. *)
Theorem insert_index_idempotent_commutes (g : Game_Ops) (i j : Z) :
  well_formed g -> 0 <= i -> 0 <= j ->
  (gi <- insert_index g i ;; insert_index gi i)%py = insert_index g i /\
  (gi <- insert_index g i ;; insert_index gi j)%py =
  (gj <- insert_index g j ;; insert_index gj i)%py.
Proof.
  intros Hwf Hi Hj.
  destruct (well_formed_inv g Hwf) as (m0 & m1 & p & tc & -> & Hp).
  rewrite !insert_index_two by assumption. cbn [rbind].
  destruct Hp as [-> | ->]; two_players;
    rewrite !insert_index_two by (auto; lia); two_players; split; f_equal; f_equal.
  - rewrite <- Z.lor_assoc, Z.lor_diag. reflexivity.
  - rewrite <- !Z.lor_assoc, (Z.lor_comm (Z.shiftl 1 i)). reflexivity.
  - rewrite <- Z.lor_assoc, Z.lor_diag. reflexivity.
  - rewrite <- !Z.lor_assoc, (Z.lor_comm (Z.shiftl 1 i)). reflexivity.
Qed.

Lemma insert_index_idempotent_commutes_witness :
  (gi <- insert_index init 4 ;; insert_index gi 4)%py = insert_index init 4 /\
  (gi <- insert_index init 4 ;; insert_index gi 7)%py =
  (gj <- insert_index init 7 ;; insert_index gj 4)%py.
Proof.
  apply (insert_index_idempotent_commutes init 4 7).
  - split; [reflexivity | left; reflexivity].
  - lia.
  - lia.
Defined.

(** X4: [insert_index] does not look at the other player's board-state: at
    a cell the other player holds it still places the mark, after which
    both board-states have the bit and are no longer disjoint.  The
    invariant rests on the check made by the caller. *)
Theorem insert_index_can_overlap (g : Game_Ops) (i : Z) :
  well_formed g -> 0 <= i ->
  Z.testbit (state_of g (1 - playerCount g)) i = true ->
  exists g', insert_index g i = Ret g' /\
    Z.testbit (state_of g' 0) i = true /\
    Z.testbit (state_of g' 1) i = true /\
    ~ disjoint g'.
Proof.
  intros Hwf Hi Hheld.
  destruct (well_formed_inv g Hwf) as (m0 & m1 & p & tc & -> & Hp).
  eexists. split; [apply insert_index_two; assumption|].
  assert (Hset : forall m, Z.testbit (Z.lor m (Z.shiftl 1 i)) i = true).
  { intros m. rewrite Z.lor_spec, testbit_bit, Z.eqb_refl by lia. apply orb_true_r. }
  cbn [playerCount] in Hheld. unfold disjoint.
  destruct Hp as [-> | ->]; two_players; revert Hheld; two_players; intros Hheld;
    (split; [first [apply Hset | exact Hheld]|]);
    (split; [first [apply Hset | exact Hheld]|]);
    intros Hdis;
    match type of Hdis with
    | Z.land ?a ?b = 0 =>
        assert (Hbit : Z.testbit (Z.land a b) i = true)
          by (rewrite Z.land_spec, Hset, Hheld; reflexivity);
        rewrite Hdis, Z.bits_0 in Hbit; discriminate
    end.
Qed.

Lemma insert_index_can_overlap_witness :
  exists g', insert_index {| boardStates := [20; 40]; playerCount := 0; turnCount := 4 |} 3
             = Ret g' /\ ~ disjoint g'.
Proof.
  destruct (insert_index_can_overlap
              {| boardStates := [20; 40]; playerCount := 0; turnCount := 4 |} 3)
    as (g' & Hins & _ & _ & Hov).
  - split; [reflexivity | left; reflexivity].
  - lia.
  - reflexivity.
  - exists g'. split; assumption.
Defined.

Lemma popcount9_submask (w m : Z) : submask w m -> popcount9 w <= popcount9 m.
Proof.
  intros Hsub. unfold popcount9.
  change (py_range 0 9) with [0; 1; 2; 3; 4; 5; 6; 7; 8]. cbn [fold_right].
  assert (Hle : forall k, Z.b2z (Z.testbit w k) <= Z.b2z (Z.testbit m k)).
  { intros k. destruct (Z.testbit w k) eqn:Hw.
    - rewrite (Hsub k Hw). simpl. lia.
    - destruct (Z.testbit m k); simpl; lia. }
  pose proof (Hle 0). pose proof (Hle 1). pose proof (Hle 2). pose proof (Hle 3).
  pose proof (Hle 4). pose proof (Hle 5). pose proof (Hle 6). pose proof (Hle 7).
  pose proof (Hle 8). lia.
Qed.

Lemma win_conditions_three (w : Z) : In w win_conditions -> popcount9 w = 3.
Proof.
  intros H. simpl in H.
  repeat (destruct H as [<- | H]; [reflexivity|]). contradiction.
Qed.

Lemma is_win_true_line (g : Game_Ops) :
  well_formed g -> is_win g = Ret true ->
  exists w, In w win_conditions /\ submask w (state_of g (playerCount g)).
Proof.
  intros Hwf Hwin. rewrite is_win_total in Hwin by assumption.
  assert (Hex : existsb (fun w => Z.land (state_of g (playerCount g)) w =? w)
                        win_conditions = true)
    by (injection Hwin as Hwin; exact Hwin).
  apply existsb_exists in Hex.
  destruct Hex as (w & Hin & Hw). exists w. split; [exact Hin|].
  apply land_submask. apply Z.eqb_eq. exact Hw.
Qed.

Lemma line_is_win (g : Game_Ops) (w : Z) :
  well_formed g -> In w win_conditions -> submask w (state_of g (playerCount g)) ->
  is_win g = Ret true.
Proof.
  intros Hwf Hin Hsub. rewrite is_win_total by assumption. f_equal.
  apply existsb_exists. exists w. split; [exact Hin|].
  apply Z.eqb_eq. apply land_submask. exact Hsub.
Qed.

(** X5: a win is never lost by a further placement: if [is_win] is true on
    a well-formed instance, it is still true after [insert_index] at any
    index i >= 0. *)
Theorem is_win_survives_placement (g : Game_Ops) (i : Z) :
  well_formed g -> 0 <= i -> is_win g = Ret true ->
  exists g', insert_index g i = Ret g' /\ is_win g' = Ret true.
Proof.
  intros Hwf Hi Hwin.
  destruct (is_win_true_line g Hwf Hwin) as (w & Hin & Hsub).
  destruct (well_formed_inv g Hwf) as (m0 & m1 & p & tc & -> & Hp).
  eexists. split; [apply insert_index_two; assumption|].
  apply (line_is_win _ w); [|exact Hin|].
  - split; [destruct Hp as [-> | ->]; reflexivity | exact Hp].
  - cbn [playerCount] in *. intros k Hk. specialize (Hsub k Hk).
    destruct Hp as [-> | ->]; revert Hsub; two_players; intros Hsub;
      rewrite Z.lor_spec, Hsub; reflexivity.
Qed.

Lemma is_win_survives_placement_witness :
  exists g', insert_index {| boardStates := [7; 24]; playerCount := 0; turnCount := 4 |} 8
             = Ret g' /\ is_win g' = Ret true.
Proof.
  apply (is_win_survives_placement
           {| boardStates := [7; 24]; playerCount := 0; turnCount := 4 |} 8).
  - split; [reflexivity | left; reflexivity].
  - lia.
  - reflexivity.
Defined.

Lemma win_has_three_marks (g : Game_Ops) :
  well_formed g -> is_win g = Ret true ->
  3 <= popcount9 (state_of g (playerCount g)).
Proof.
  intros Hwf Hwin.
  destruct (is_win_true_line g Hwf Hwin) as (w & Hin & Hsub).
  rewrite <- (win_conditions_three w Hin). apply popcount9_submask. exact Hsub.
Qed.

(** X6: [is_win] needs three marks: on a well-formed instance on which it
    returns true, at least three of the cells 0..8 are set in the current
    player's board-state. *)
Theorem is_win_needs_three_marks (g : Game_Ops) :
  well_formed g -> is_win g = Ret true ->
  3 <= popcount9 (state_of g (playerCount g)).
Proof. exact (win_has_three_marks g). Qed.

Lemma is_win_needs_three_marks_witness :
  3 <= popcount9 (state_of {| boardStates := [24; 84]; playerCount := 1; turnCount := 5 |} 1).
Proof.
  apply (is_win_needs_three_marks
           {| boardStates := [24; 84]; playerCount := 1; turnCount := 5 |}).
  - split; [reflexivity | right; reflexivity].
  - reflexivity.
Defined.

(** ** More on drawing the board *)

(** X7: [frontend_draw_board] needs no disjointness to run: for any two
    nine-bit board-states it clears the screen, prints the playfield and
    changes neither the instance nor the input.  Cell i shows player 1's
    symbol when bit i is set in player 1's board-state, whether or not
    player 0 has the bit too; otherwise player 0's symbol when player 0 has
    the bit, and a space when neither has it. *)
Theorem draw_board_player1_on_top (m0 m1 : Z) (s0 s1 : string) (w : World) :
  nine_bit m0 -> nine_bit m1 ->
  boardStates (instance w) = [m0; m1] ->
  exists data,
    frontend_draw_board [s0; s1] w = (wrote w [Clear; Print (render data)], Ret tt) /\
    length data = 9%nat /\
    forall i, 0 <= i <= 8 ->
      slot data (Z.to_nat i) =
      if Z.testbit m1 i then s1 else if Z.testbit m0 i then s0 else " ".
Proof.
  intros Hm0 Hm1 Hw.
  destruct (board_data_cells m0 m1 s0 s1 Hm0 Hm1) as (data & Hdata & Hlen & Hcells).
  exists data. split; [|split; [exact Hlen|]].
  - apply frontend_draw_board_run; [rewrite Hw; exact Hdata | exact Hlen].
  - intros i Hi. unfold slot. rewrite nth_lookup, (Hcells i Hi). reflexivity.
Qed.

Lemma draw_board_player1_on_top_witness :
  exists data,
    frontend_draw_board ["X"; "O"]
      {| instance := {| boardStates := [28; 40]; playerCount := 0; turnCount := 4 |};
         stdin := ["5"]; stdout := []; history := [] |}
    = ({| instance := {| boardStates := [28; 40]; playerCount := 0; turnCount := 4 |};
          stdin := ["5"]; stdout := [Clear; Print (render data)]; history := [] |}, Ret tt) /\
    slot data 3 = "O".
Proof.
  destruct (draw_board_player1_on_top 28 40 "X" "O"
              {| instance := {| boardStates := [28; 40]; playerCount := 0; turnCount := 4 |};
                 stdin := ["5"]; stdout := []; history := [] |})
    as (data & Hdraw & _ & Hcells).
  - unfold nine_bit. lia.
  - unfold nine_bit. lia.
  - reflexivity.
  - exists data. split; [exact Hdraw|]. apply (Hcells 3). lia.
Defined.

(** X8: the display is unambiguous: with two symbols that differ from each
    other and from the space, two pairs of disjoint nine-bit board-states
    that fill the playfield with the same nine texts are the same pair. *)
Theorem board_data_injective (m0 m1 n0 n1 : Z) (s0 s1 : string) :
  nine_bit m0 -> nine_bit m1 -> nine_bit n0 -> nine_bit n1 ->
  Z.land m0 m1 = 0 -> Z.land n0 n1 = 0 ->
  s0 <> s1 -> s0 <> " " -> s1 <> " " ->
  board_data [s0; s1] [m0; m1] = board_data [s0; s1] [n0; n1] ->
  m0 = n0 /\ m1 = n1.
Proof.
  intros Hm0 Hm1 Hn0 Hn1 Hdm Hdn N01 N0 N1 Heq.
  destruct (board_data_cells m0 m1 s0 s1 Hm0 Hm1) as (data & Hdata & _ & Hcells).
  destruct (board_data_cells n0 n1 s0 s1 Hn0 Hn1) as (data' & Hdata' & _ & Hcells').
  rewrite Hdata, Hdata' in Heq. injection Heq as <-.
  assert (Hbits : forall i, 0 <= i <= 8 ->
            Z.testbit m0 i = Z.testbit n0 i /\ Z.testbit m1 i = Z.testbit n1 i).
  { intros i Hi. pose proof (Hcells i Hi) as H. rewrite (Hcells' i Hi) in H.
    injection H as H.
    destruct (Z.testbit m0 i) eqn:A0; destruct (Z.testbit m1 i) eqn:A1;
      try (rewrite (disjoint_bits m0 m1 i Hdm A0) in A1; discriminate);
      destruct (Z.testbit n0 i) eqn:B0; destruct (Z.testbit n1 i) eqn:B1;
      try (rewrite (disjoint_bits n0 n1 i Hdn B0) in B1; discriminate);
      try (split; reflexivity); exfalso; congruence. }
  split; apply Z.bits_inj'; intros i Hi;
    (destruct (Z.le_gt_cases i 8);
     [apply Hbits; lia | rewrite !nine_bit_high by (assumption || lia); reflexivity]).
Qed.

Lemma board_data_injective_witness : 20 = 20 /\ 40 = 40.
Proof.
  apply (board_data_injective 20 40 20 40 "X" "O");
    try (unfold nine_bit; lia); try reflexivity; discriminate.
Defined.

Lemma place_all_lor (cells : list Z) :
  Forall (fun c => 0 <= c) cells ->
  forall a b tc,
    place_all cells {| boardStates := [a; b]; playerCount := 0; turnCount := tc |} =
    Ret {| boardStates := [fold_left (fun acc c => Z.lor acc (Z.shiftl 1 c)) cells a; b];
           playerCount := 0; turnCount := tc |}.
Proof.
  unfold place_all. induction 1 as [|c cells Hc _ IH]; intros a b tc.
  - reflexivity.
  - cbn [py_for fold_left]. rewrite insert_index_two by (auto; lia).
    cbn [rbind]. two_players. apply IH.
Qed.

Lemma testbit_fold_lor (cells : list Z) :
  Forall (fun c => 0 <= c) cells ->
  forall a j,
    Z.testbit (fold_left (fun acc c => Z.lor acc (Z.shiftl 1 c)) cells a) j =
    Z.testbit a j || existsb (Z.eqb j) cells.
Proof.
  induction 1 as [|c cells Hc _ IH]; intros a j; cbn [fold_left existsb].
  - rewrite orb_false_r. reflexivity.
  - rewrite IH, Z.lor_spec, testbit_bit by assumption. rewrite orb_assoc. reflexivity.
Qed.

(** X9: decoding and placing are inverse to each other: for a nine-bit
    board-state m, placing marks from the initial instance at the cells
    that [frontend_draw_board] reads off m gives player 0 the board-state m
    again, and changes nothing else. *)
Theorem decode_then_place (m : Z) :
  nine_bit m ->
  place_all (one_indices (bin_str m)) init =
  Ret {| boardStates := [m; 0]; playerCount := 0; turnCount := 0 |}.
Proof.
  intros Hm.
  assert (Hnn : Forall (fun c => 0 <= c) (one_indices (bin_str m))).
  { apply List.Forall_forall. intros c Hc.
    apply one_indices_spec in Hc; [lia | assumption]. }
  unfold init. rewrite place_all_lor by assumption. do 2 f_equal. f_equal.
  apply Z.bits_inj'. intros j Hj.
  rewrite testbit_fold_lor by assumption. rewrite Z.bits_0. cbn [orb].
  destruct (existsb (Z.eqb j) (one_indices (bin_str m))) eqn:Hex.
  - apply existsb_exists in Hex. destruct Hex as (c & Hc & Hjc).
    apply Z.eqb_eq in Hjc. subst c.
    apply one_indices_spec in Hc; [|assumption]. symmetry. apply Hc.
  - destruct (Z.testbit m j) eqn:Hbit; [|reflexivity].
    destruct (Z.le_gt_cases j 8) as [Hle | Hgt].
    + assert (Hin : In j (one_indices (bin_str m)))
        by (apply one_indices_spec; [assumption | split; [lia | exact Hbit]]).
      assert (Ht : existsb (Z.eqb j) (one_indices (bin_str m)) = true)
        by (apply existsb_exists; exists j; split; [exact Hin | apply Z.eqb_refl]).
      rewrite Ht in Hex. discriminate.
    + rewrite nine_bit_high in Hbit by (assumption || lia). discriminate.
Qed.

Lemma decode_then_place_witness :
  place_all (one_indices (bin_str 84)) init =
  Ret {| boardStates := [84; 0]; playerCount := 0; turnCount := 0 |}.
Proof. apply (decode_then_place 84). unfold nine_bit. lia. Defined.

(** ** More on asking for a move *)

Lemma py_in_cells_list (line : string) :
  py_in line (map py_str (py_range 0 9)) = true <->
  In line ["0"; "1"; "2"; "3"; "4"; "5"; "6"; "7"; "8"].
Proof.
  change (map py_str (py_range 0 9))
    with ["0"; "1"; "2"; "3"; "4"; "5"; "6"; "7"; "8"].
  unfold py_in. rewrite existsb_exists. split.
  - intros (x & Hx & E). apply String.eqb_eq in E. subst x. exact Hx.
  - intros H. exists line. split; [exact H | apply String.eqb_refl].
Qed.

(** X10: [frontend_ask_input] accepts a line only if it is one of the nine
    one-character strings '0', ..., '8'.  Every other line is turned down
    with the range message and the function starts over on the rest of the
    input: '9', 'a', and every line whose length is not 1, so that '08',
    ' 5' or '+5', which [int] would read as a cell number, are refused like
    the empty line or '10'.  A line that is one of the nine strings is the
    numeral of a cell i in [0,8]; it is returned at once when the cell is
    free and turned down with the taken message when it is not. *)
Theorem ask_input_accepts_only_cells (symbols : list string) (w : World)
    (line : string) (rest : list string) :
  length symbols = 2%nat -> well_formed (instance w) ->
  exists sym,
    py_getitem symbols (playerCount (instance w)) = Ret sym /\
    (~ In line ["0"; "1"; "2"; "3"; "4"; "5"; "6"; "7"; "8"] ->
     frontend_ask_input symbols (reading w (line :: rest)) =
     frontend_ask_input symbols
       (wrote (reading w rest) [Prompt (ask_prompt sym); Print msg_range])) /\
    (String.length line <> 1%nat ->
     ~ In line ["0"; "1"; "2"; "3"; "4"; "5"; "6"; "7"; "8"]) /\
    (In line ["0"; "1"; "2"; "3"; "4"; "5"; "6"; "7"; "8"] ->
     exists i,
       0 <= i <= 8 /\ line = py_str i /\
       String (ascii_of_nat (48 + Z.to_nat i)) "" = line /\
       (is_in_board_state (instance w) i = Ret false ->
        frontend_ask_input symbols (reading w (line :: rest)) =
        (wrote (reading w rest) [Prompt (ask_prompt sym)], Ret i)) /\
       (is_in_board_state (instance w) i = Ret true ->
        frontend_ask_input symbols (reading w (line :: rest)) =
        frontend_ask_input symbols
          (wrote (reading w rest) [Prompt (ask_prompt sym); Print msg_taken]))).
Proof.
  intros Hlen Hwf.
  destruct (symbols_getitem symbols (instance w) Hlen Hwf) as (sym & Hsym).
  exists sym. split; [exact Hsym|]. split; [|split].
  - intros Hnot.
    apply frontend_ask_input_retry; [|reflexivity].
    apply (ask_once_no_cell symbols sym w Hsym line rest).
    destruct (py_in line (map py_str (py_range 0 9))) eqn:Hin; [|reflexivity].
    exfalso. apply Hnot. apply py_in_cells_list. exact Hin.
  - intros Hline Hin. apply Hline. simpl in Hin.
    repeat (destruct Hin as [<- | Hin]; [reflexivity|]). contradiction.
  - intros Hin.
    assert (Hi : exists i, 0 <= i <= 8 /\ line = py_str i /\
                           String (ascii_of_nat (48 + Z.to_nat i)) "" = line).
    { simpl in Hin.
      repeat (destruct Hin as [<- | Hin];
              [first [exists 0; split; [lia|]; split; reflexivity
                     |exists 1; split; [lia|]; split; reflexivity
                     |exists 2; split; [lia|]; split; reflexivity
                     |exists 3; split; [lia|]; split; reflexivity
                     |exists 4; split; [lia|]; split; reflexivity
                     |exists 5; split; [lia|]; split; reflexivity
                     |exists 6; split; [lia|]; split; reflexivity
                     |exists 7; split; [lia|]; split; reflexivity
                     |exists 8; split; [lia|]; split; reflexivity]|]).
      contradiction. }
    destruct Hi as (i & Hi & -> & Hchar).
    exists i. split; [exact Hi|]. split; [reflexivity|]. split; [exact Hchar|]. split.
    + intros Hfree. apply frontend_ask_input_done.
      exact (ask_once_cell symbols sym w Hsym i rest false Hi Hfree).
    + intros Htaken. apply frontend_ask_input_retry; [|reflexivity].
      exact (ask_once_cell symbols sym w Hsym i rest true Hi Htaken).
Qed.

Lemma ask_input_accepts_only_cells_witness :
  let w := {| instance := {| boardStates := [16; 1]; playerCount := 0; turnCount := 2 |};
              stdin := []; stdout := []; history := [] |} in
  (frontend_ask_input ["X"; "O"] (reading w ["9"; "4"]) =
   frontend_ask_input ["X"; "O"]
     (wrote (reading w ["4"]) [Prompt (ask_prompt "X"); Print msg_range])) /\
  (frontend_ask_input ["X"; "O"] (reading w ["08"; "4"]) =
   frontend_ask_input ["X"; "O"]
     (wrote (reading w ["4"]) [Prompt (ask_prompt "X"); Print msg_range])) /\
  (frontend_ask_input ["X"; "O"] (reading w ["8"; "4"]) =
   (wrote (reading w ["4"]) [Prompt (ask_prompt "X")], Ret 8)).
Proof.
  intros w.
  assert (Hwf : well_formed (instance w)) by (split; [reflexivity | left; reflexivity]).
  destruct (ask_input_accepts_only_cells ["X"; "O"] w "9" ["4"] eq_refl Hwf)
    as (sym1 & Hsym1 & Hnine & _).
  destruct (ask_input_accepts_only_cells ["X"; "O"] w "08" ["4"] eq_refl Hwf)
    as (sym2 & Hsym2 & Hpad & _).
  destruct (ask_input_accepts_only_cells ["X"; "O"] w "8" ["4"] eq_refl Hwf)
    as (sym3 & Hsym3 & _ & _ & Hcell).
  injection Hsym1 as <-. injection Hsym2 as <-. injection Hsym3 as <-.
  split; [|split].
  - apply Hnine. simpl. intuition discriminate.
  - apply Hpad. simpl. intuition discriminate.
  - destruct Hcell as (i & Hi & Hline & _ & Hfree & _).
    + simpl. auto 10.
    + assert (Hi8 : i = 8) by (apply (py_str_cell_inj i 8); [lia | lia | symmetry; exact Hline]).
      subst i. apply Hfree. reflexivity.
Defined.

(** X11: on a full board [frontend_ask_input] cannot return: with two
    symbols and a well-formed instance in which every cell 0..8 is taken,
    it reads the whole input, refusing every line, and ends with
    [EOFError]; the instance is unchanged. *)
Theorem ask_input_full_board (symbols : list string) (w : World) :
  length symbols = 2%nat -> well_formed (instance w) -> board_full (instance w) ->
  exists w' refused,
    frontend_ask_input symbols w = (w', Raise EOFError) /\
    stdin w = map fst refused /\
    Forall (fun lm => refusal (instance w) (fst lm) (snd lm)) refused /\
    stdin w' = [] /\ instance w' = instance w.
Proof.
  intros Hlen Hwf Hfull.
  destruct (symbols_getitem symbols (instance w) Hlen Hwf) as (sym & Hsym).
  destruct (length_two _ (proj1 Hwf)) as (m0 & m1 & Hbs).
  destruct (frontend_ask_input_outcome symbols sym m0 m1 (stdin w) w eq_refl Hbs Hsym)
    as (refused & w' & r & Hask & Hinst & _ & Href & _ & Hend).
  destruct Hend as [(-> & Hin & Hnil) | (i & _ & Hi & _ & B0 & B1 & _)].
  - exists w', refused. repeat split; assumption.
  - exfalso. destruct (Hfull i Hi) as [H | H]; congruence.
Qed.

Lemma ask_input_full_board_witness :
  let w := {| instance := {| boardStates := [397; 114]; playerCount := 1; turnCount := 9 |};
              stdin := ["0"; "x"; "8"]; stdout := []; history := [] |} in
  exists w', frontend_ask_input ["X"; "O"] w = (w', Raise EOFError) /\ stdin w' = [].
Proof.
  intros w.
  destruct (ask_input_full_board ["X"; "O"] w) as (w' & refused & Hask & _ & _ & Hnil & _).
  - reflexivity.
  - split; [reflexivity | right; reflexivity].
  - intros i Hi.
    assert (Hc : i = 0 \/ i = 1 \/ i = 2 \/ i = 3 \/ i = 4 \/ i = 5 \/ i = 6 \/ i = 7
                 \/ i = 8) by lia.
    repeat (destruct Hc as [-> | Hc]; [vm_compute; auto|]). subst. vm_compute. auto.
  - exists w'. split; assumption.
Defined.

(** ** Invariants of the game loop *)

Section LoopInvariant.

Variable P : Game_Ops -> Prop.

(** [P] survives a turn whose placement does not win. *)
Hypothesis P_kept :
  forall g i g1,
    at_rest g -> P g -> turnCount g < 9 -> 0 <= i <= 8 ->
    is_in_board_state g i = Ret false ->
    insert_index g i = Ret g1 ->
    is_win g1 = Ret false ->
    P (update_turn (update_player_count g1) 1).

Lemma game_loop_invariant (symbols : list string) :
  length symbols = 2%nat ->
  forall (n : nat) (w : World),
    at_rest (instance w) -> P (instance w) ->
    (turns_left (instance w) <= n)%nat ->
    exists w' r,
      while_do n (call (fun g => Ret (turnCount g <? 9))) (turn symbols) w = (w', r) /\
      ((r = Ret tt /\ at_rest (instance w') /\ P (instance w') /\
        turnCount (instance w') = 9) \/
       (r = Raise EOFError /\ at_rest (instance w') /\ P (instance w') /\
        turnCount (instance w') < 9) \/
       (r = Raise SystemExit /\
        exists g i sym,
          at_rest g /\ P g /\ turnCount g < 9 /\ 0 <= i <= 8 /\
          is_in_board_state g i = Ret false /\
          insert_index g i = Ret (instance w') /\
          is_win (instance w') = Ret true /\
          py_getitem symbols (playerCount (instance w')) = Ret sym /\
          last (stdout w') = Some (Print ("Player " +:+ sym +:+ " won!")))).
Proof.
  intros Hsym. induction n as [|n IH]; intros w Hrest HP Hfuel.
  - unfold turns_left in Hfuel.
    exists w, (Ret tt). split.
    + cbn [while_do]. rewrite (mbind_ret _ _ w w false); [reflexivity|].
      rewrite call_run. destruct (Z.ltb_spec (turnCount (instance w)) 9); [lia | reflexivity].
    + left. split; [reflexivity|]. split; [exact Hrest|]. split; [exact HP|].
      destruct Hrest as (_ & _ & _ & _ & _ & Hle & _). lia.
  - destruct (Z.ltb_spec (turnCount (instance w)) 9) as [Hlt | Hge].
    2:{ exists w, (Ret tt). split.
        - cbn [while_do]. rewrite (mbind_ret _ _ w w false); [reflexivity|].
          rewrite call_run.
          destruct (Z.ltb_spec (turnCount (instance w)) 9); [lia | reflexivity].
        - left. split; [reflexivity|]. split; [exact Hrest|]. split; [exact HP|].
          destruct Hrest as (_ & _ & _ & _ & _ & Hle & _). lia. }
    assert (Hcond : call (fun g => Ret (turnCount g <? 9)) w = (w, Ret true)).
    { rewrite call_run. destruct (Z.ltb_spec (turnCount (instance w)) 9); [reflexivity | lia]. }
    cbn [while_do]. rewrite (mbind_ret _ _ _ _ _ Hcond).
    destruct (turn_outcome symbols w Hsym Hrest) as (w1 & r & Hturn & Hcases).
    destruct Hcases as [(-> & Hinst & _) | (i & g1 & Hi & Hfree & Hins & Hcases)].
    + exists w1, (Raise EOFError). split; [apply mbind_raise; exact Hturn|].
      right. left. rewrite Hinst.
      split; [reflexivity|]. split; [exact Hrest|]. split; [exact HP | exact Hlt].
    + destruct (after_placement (instance w) g1 i Hrest Hlt Hi Hfree Hins)
        as (Htc1 & _ & _ & _ & _ & Hnext).
      destruct Hcases as [(Hnowin & -> & Hinst & _)
                         | (Hwon & -> & Hinst & _ & sym & Hget & Hsays)].
      * destruct (IH w1) as (w' & r & Hloop & Hend).
        -- rewrite Hinst. exact (Hnext Hnowin).
        -- rewrite Hinst. exact (P_kept _ _ _ Hrest HP Hlt Hi Hfree Hins Hnowin).
        -- rewrite Hinst. unfold turns_left in *.
           cbn [update_turn update_player_count turnCount]. lia.
        -- exists w', r. split; [|exact Hend].
           rewrite (mbind_ret _ _ _ _ _ Hturn). exact Hloop.
      * exists w1, (Raise SystemExit). split; [apply mbind_raise; exact Hturn|].
        right. right. split; [reflexivity|].
        exists (instance w), i, sym. rewrite Hinst.
        split; [exact Hrest|]. split; [exact HP|]. split; [exact Hlt|].
        split; [exact Hi|]. split; [exact Hfree|]. split; [exact Hins|].
        split; [exact Hwon|]. split; [exact Hget | exact Hsays].
Qed.

(** The same for the whole program; the symbols are the first two lines. *)
Lemma run_invariant (lines : list string) :
  P init ->
  exists w' r,
    run lines = (w', r) /\
    ((r = Ret tt /\ at_rest (instance w') /\ P (instance w') /\
      turnCount (instance w') = 9) \/
     (r = Raise EOFError /\ at_rest (instance w') /\ P (instance w') /\
      turnCount (instance w') < 9) \/
     (r = Raise SystemExit /\
      exists a b rest g i sym,
        lines = a :: b :: rest /\
        at_rest g /\ P g /\ turnCount g < 9 /\ 0 <= i <= 8 /\
        is_in_board_state g i = Ret false /\
        insert_index g i = Ret (instance w') /\
        is_win (instance w') = Ret true /\
        py_getitem [a; b] (playerCount (instance w')) = Ret sym /\
        last (stdout w') = Some (Print ("Player " +:+ sym +:+ " won!")))).
Proof.
  intros HP0. unfold run, main.
  destruct (frontend_draw_board_total [" "; " "] (start lines) eq_refl eq_refl)
    as (data0 & Hdraw0); [cbv; split; [discriminate | reflexivity] ..|].
  rewrite (mbind_ret _ _ _ _ _ Hdraw0). cbv beta.
  set (w1 := wrote (start lines) [Clear; Print (render data0)]).
  destruct (le_lt_dec 2 (length (stdin w1))) as [Hlen | Hlen].
  - destruct (stdin w1) as [|a [|b rest]] eqn:Hin; try (simpl in Hlen; lia).
    change (stdin w1) with lines in Hin.
    rewrite (mbind_ret _ _ _ _ _ (frontend_pre_game_run w1 a b rest Hin)). cbv beta.
    set (w2 := reading _ rest).
    destruct (game_loop_invariant [a; b] eq_refl (turns_left (instance w2)) w2)
      as (w3 & r & Hloop & Hend); [exact at_rest_init | exact HP0 | lia |].
    change (game_loop [a; b] w2 = (w3, r)) in Hloop.
    destruct Hend as [(-> & Hrest & HP & Hnine) | [(-> & Hrest & HP & Hlt) | (-> & Hwon)]].
    + rewrite (mbind_ret _ _ _ _ _ Hloop). cbv beta.
      pose proof Hrest as (Hwf & N0 & N1 & _).
      destruct (frontend_draw_board_total [a; b] w3 eq_refl (proj1 Hwf) N0 N1)
        as (data & Hdraw).
      rewrite (mbind_ret _ _ _ _ _ Hdraw). cbv beta.
      eexists. exists (Ret tt). split; [reflexivity|].
      left. split; [reflexivity|]. split; [exact Hrest|]. split; [exact HP | exact Hnine].
    + exists w3, (Raise EOFError). split; [apply mbind_raise; exact Hloop|].
      right. left. split; [reflexivity|]. split; [exact Hrest|]. split; assumption.
    + exists w3, (Raise SystemExit). split; [apply mbind_raise; exact Hloop|].
      right. right. split; [reflexivity|].
      destruct Hwon as (g & i & sym & Hwon). exists a, b, rest, g, i, sym.
      split; [exact Hin | exact Hwon].
  - destruct (frontend_pre_game_eof w1 Hlen) as (w2 & prompt & Hpre & Hinst & _).
    exists w2, (Raise EOFError). split; [apply mbind_raise; exact Hpre|].
    right. left. split; [reflexivity|]. rewrite Hinst.
    split; [exact at_rest_init|]. split; [exact HP0 | simpl; lia].
Qed.

End LoopInvariant.

(** ** The course of a game *)

(** X12: without two lines for the symbols no game is played: [main] draws
    the empty playfield, asks for the symbols, and ends with [EOFError]
    having used up the input; the instance has never been touched. *)
Theorem run_without_symbols (lines : list string) :
  (length lines < 2)%nat ->
  exists w',
    run lines = (w', Raise EOFError) /\
    instance w' = init /\ history w' = [init] /\ stdin w' = [] /\
    exists data prompts,
      stdout w' = [Clear; Print (render data)] ++ map Prompt prompts /\
      length prompts = S (length lines) /\
      Forall (fun d => d = " ") data.
Proof.
  intros Hlen.
  destruct lines as [|a [|b rest]]; [| |simpl in Hlen; lia].
  - eexists. split; [reflexivity|]. repeat split.
    exists (replicate 9 " "), ["Player 0 symbol: "]. repeat split.
    repeat constructor.
  - eexists. split; [reflexivity|]. repeat split.
    exists (replicate 9 " "), ["Player 0 symbol: "; "Player 1 symbol: "]. repeat split.
    repeat constructor.
Qed.

Lemma run_without_symbols_witness :
  exists w', run ["X"] = (w', Raise EOFError) /\ instance w' = init.
Proof.
  destruct (run_without_symbols ["X"]) as (w' & Hrun & Hinst & _).
  - simpl. lia.
  - exists w'. split; assumption.
Defined.

Lemma placement_counts (g g1 : Game_Ops) (i : Z) :
  at_rest g -> 0 <= i <= 8 ->
  is_in_board_state g i = Ret false ->
  insert_index g i = Ret g1 ->
  well_formed g1 /\
  playerCount g1 = playerCount g /\
  turnCount g1 = turnCount g /\
  popcount9 (state_of g1 (playerCount g)) = popcount9 (state_of g (playerCount g)) + 1 /\
  state_of g1 (1 - playerCount g) = state_of g (1 - playerCount g).
Proof.
  intros Hrest Hi Hfree Hins.
  destruct Hrest as (Hwf & _).
  destruct (well_formed_inv g Hwf) as (m0 & m1 & p & tc & -> & Hp).
  rewrite is_in_board_state_two in Hfree by lia.
  injection Hfree as Hfree. apply orb_false_iff in Hfree. destruct Hfree as [B0 B1].
  rewrite insert_index_two in Hins by (assumption || lia).
  injection Hins as <-. cbn [playerCount turnCount].
  destruct Hp as [-> | ->]; two_players.
  - split; [split; [reflexivity | left; reflexivity]|].
    split; [reflexivity|]. split; [reflexivity|].
    split; [apply popcount9_place; assumption | reflexivity].
  - split; [split; [reflexivity | right; reflexivity]|].
    split; [reflexivity|]. split; [reflexivity|].
    split; [apply popcount9_place; assumption | reflexivity].
Qed.

Lemma alternating_init : alternating init.
Proof. repeat split. Qed.

Lemma alternating_kept (g : Game_Ops) (i : Z) (g1 : Game_Ops) :
  at_rest g -> alternating g -> turnCount g < 9 -> 0 <= i <= 8 ->
  is_in_board_state g i = Ret false ->
  insert_index g i = Ret g1 ->
  is_win g1 = Ret false ->
  alternating (update_turn (update_player_count g1) 1).
Proof.
  intros Hrest (Hp & H0 & H1) _ Hi Hfree Hins _.
  destruct (placement_counts g g1 i Hrest Hi Hfree Hins)
    as (_ & Hp1 & Htc1 & Hcur & Hother).
  pose proof (at_rest_nonneg g Hrest) as Hnn.
  destruct Hrest as ((_ & Hpc) & _).
  unfold alternating.
  change (state_of (update_turn (update_player_count g1) 1) 0) with (state_of g1 0).
  change (state_of (update_turn (update_player_count g1) 1) 1) with (state_of g1 1).
  cbn [update_turn update_player_count playerCount turnCount].
  rewrite Hp1, Htc1.
  destruct Hpc as [E | E]; rewrite E in *; revert Hcur Hother; two_players;
    intros Hcur Hother; rewrite Hcur, Hother, H0, H1;
    clear - Hp Hnn; Z.div_mod_to_equations; lia.
Qed.

(** X13: player 0 moves first and the players take turns.  Whenever the
    program stops (draw, win, or end of input), the player index is the
    parity of the turn counter, and of the M marks on the board player 0
    holds (M + 1) / 2 and player 1 holds M / 2, rounded down. *)
Theorem players_alternate (lines : list string) :
  let g := instance (fst (run lines)) in
  playerCount g = turnCount g mod 2 /\
  popcount9 (state_of g 0) = (marks g + 1) / 2 /\
  popcount9 (state_of g 1) = marks g / 2.
Proof.
  destruct (run_invariant alternating alternating_kept lines alternating_init)
    as (w' & r & Hrun & Hend).
  rewrite Hrun. cbn [fst].
  destruct Hend as [(_ & Hrest & Halt & _) | [(_ & Hrest & Halt & _) | (_ & Hwon)]].
  - rewrite <- (at_rest_count _ Hrest). exact Halt.
  - rewrite <- (at_rest_count _ Hrest). exact Halt.
  - destruct Hwon as (a & b & rest & g & i & sym & _ & Hrest & (Hp & H0 & H1) & _ & Hi
                      & Hfree & Hins & _).
    destruct (placement_counts g _ i Hrest Hi Hfree Hins)
      as (_ & Hp1 & Htc1 & Hcur & Hother).
    pose proof (at_rest_nonneg g Hrest) as Hnn.
    destruct Hrest as ((_ & Hpc) & _).
    unfold marks. rewrite Hp1, Htc1.
    destruct Hpc as [E | E]; rewrite E in *; revert Hcur Hother; two_players;
      intros Hcur Hother; rewrite Hcur, Hother, H0, H1;
      clear - Hp Hnn; Z.div_mod_to_equations; lia.
Qed.

(** X14: no game is won before the fifth mark: when the program exits
    through the win branch, at least five marks are on the board and the
    turn counter is at least 4. *)
Theorem no_win_before_fifth_mark (lines : list string) :
  snd (run lines) = Raise SystemExit ->
  5 <= marks (instance (fst (run lines))) /\
  4 <= turnCount (instance (fst (run lines))).
Proof.
  destruct (run_invariant alternating alternating_kept lines alternating_init)
    as (w' & r & Hrun & Hend).
  rewrite Hrun. cbn [fst snd]. intros ->.
  destruct Hend as [(Hr & _) | [(Hr & _) | (_ & Hwon)]]; try discriminate Hr.
  destruct Hwon as (a & b & rest & g & i & sym & _ & Hrest & (Hp & H0 & H1) & _ & Hi
                    & Hfree & Hins & Hwin & _).
  destruct (placement_counts g _ i Hrest Hi Hfree Hins)
    as (Hwf1 & Hp1 & Htc1 & Hcur & Hother).
  pose proof (win_has_three_marks _ Hwf1 Hwin) as Hthree.
  pose proof (at_rest_nonneg g Hrest) as Hnn.
  destruct Hrest as ((_ & Hpc) & _).
  unfold marks. rewrite Hp1 in Hthree. rewrite Htc1.
  destruct Hpc as [E | E]; rewrite E in *; revert Hcur Hother Hthree; two_players;
    intros Hcur Hother Hthree; rewrite Hcur, Hother, H0, H1 in *;
    clear - Hp Hnn Hthree; Z.div_mod_to_equations; lia.
Qed.

Lemma no_win_before_fifth_mark_witness :
  5 <= marks (instance (fst (run ["X"; "O"; "0"; "3"; "1"; "4"; "2"]))) /\
  4 <= turnCount (instance (fst (run ["X"; "O"; "0"; "3"; "1"; "4"; "2"]))).
Proof.
  apply (no_win_before_fifth_mark ["X"; "O"; "0"; "3"; "1"; "4"; "2"]).
  vm_compute. reflexivity.
Defined.

Lemma nothing_kept (g : Game_Ops) (i : Z) (g1 : Game_Ops) :
  at_rest g -> True -> turnCount g < 9 -> 0 <= i <= 8 ->
  is_in_board_state g i = Ret false ->
  insert_index g i = Ret g1 ->
  is_win g1 = Ret false -> True.
Proof. trivial. Qed.

(** X15: the win message names the right player.  When the program exits
    through the win branch, the input began with the two symbols, the last
    thing printed is 'Player s won!' with s the symbol of the player whose
    turn it was, that player's board-state covers a winning line, and the
    other player's covers none. *)
Theorem winner_is_announced (lines : list string) :
  snd (run lines) = Raise SystemExit ->
  let w' := fst (run lines) in
  let g := instance w' in
  exists a b rest,
    lines = a :: b :: rest /\
    (playerCount g = 0 \/ playerCount g = 1) /\
    last (stdout w') =
      Some (Print ("Player " +:+ (if playerCount g =? 0 then a else b) +:+ " won!")) /\
    (exists line, In line win_conditions /\ submask line (state_of g (playerCount g))) /\
    no_win (state_of g (1 - playerCount g)).
Proof.
  destruct (run_invariant (fun _ => True) nothing_kept lines I)
    as (w' & r & Hrun & Hend).
  rewrite Hrun. cbn [fst snd]. intros ->.
  destruct Hend as [(Hr & _) | [(Hr & _) | (_ & Hwon)]]; try discriminate Hr.
  destruct Hwon as (a & b & rest & g & i & sym & Hlines & Hrest & _ & _ & Hi
                    & Hfree & Hins & Hwin & Hget & Hsays).
  destruct (placement g i Hrest Hi Hfree)
    as (g1 & Hins' & Hwf1 & Hp1 & _ & _ & _ & _ & _ & Hother).
  rewrite Hins in Hins'. injection Hins' as <-.
  exists a, b, rest. split; [exact Hlines|]. split; [exact (proj2 Hwf1)|].
  split.
  - rewrite Hsays. do 2 f_equal.
    rewrite py_getitem_two in Hget by exact (proj2 Hwf1).
    injection Hget as <-. reflexivity.
  - split; [exact (is_win_true_line _ Hwf1 Hwin)|].
    rewrite Hp1. exact Hother.
Qed.

Lemma winner_is_announced_witness :
  exists a b rest,
    ["X"; "O"; "0"; "3"; "1"; "4"; "2"] = a :: b :: rest /\
    last (stdout (fst (run ["X"; "O"; "0"; "3"; "1"; "4"; "2"]))) =
    Some (Print ("Player " +:+
                 (if playerCount (instance (fst (run ["X"; "O"; "0"; "3"; "1"; "4"; "2"]))) =? 0
                  then a else b) +:+ " won!")).
Proof.
  destruct (winner_is_announced ["X"; "O"; "0"; "3"; "1"; "4"; "2"])
    as (a & b & rest & Hl & _ & Hsays & _).
  - vm_compute. reflexivity.
  - exists a, b, rest. split; [exact Hl | exact Hsays].
Defined.

Lemma full_of_nine (m0 m1 : Z) :
  Z.land m0 m1 = 0 -> popcount9 m0 + popcount9 m1 = 9 ->
  forall i, 0 <= i <= 8 -> Z.testbit m0 i = true \/ Z.testbit m1 i = true.
Proof.
  intros Hdis Hsum.
  assert (Hk : forall k, Z.b2z (Z.testbit m0 k) + Z.b2z (Z.testbit m1 k) <= 1).
  { intros k. destruct (Z.testbit m0 k) eqn:B0.
    - rewrite (disjoint_bits m0 m1 k Hdis B0). simpl. lia.
    - destruct (Z.testbit m1 k); simpl; lia. }
  assert (Hone : forall k, 0 <= k <= 8 ->
            Z.b2z (Z.testbit m0 k) + Z.b2z (Z.testbit m1 k) = 1).
  { unfold popcount9 in Hsum.
    change (py_range 0 9) with [0; 1; 2; 3; 4; 5; 6; 7; 8] in Hsum.
    cbn [fold_right] in Hsum.
    pose proof (Hk 0). pose proof (Hk 1). pose proof (Hk 2). pose proof (Hk 3).
    pose proof (Hk 4). pose proof (Hk 5). pose proof (Hk 6). pose proof (Hk 7).
    pose proof (Hk 8).
    intros k Hkr.
    assert (Hc : k = 0 \/ k = 1 \/ k = 2 \/ k = 3 \/ k = 4 \/ k = 5 \/ k = 6 \/ k = 7
                 \/ k = 8) by lia.
    repeat (destruct Hc as [-> | Hc]; [lia|]). subst. lia. }
  intros i Hi. specialize (Hone i Hi).
  destruct (Z.testbit m0 i); [left; reflexivity|].
  destruct (Z.testbit m1 i); [right; reflexivity|]. simpl in Hone. lia.
Qed.

(** X16: a draw is a full board: when [main] returns normally, every cell
    is taken, the OR of the two board-states is 511, player 0 holds five
    cells and player 1 four, and the player index is 1. *)
Theorem draw_fills_board (lines : list string) :
  snd (run lines) = Ret tt ->
  let g := instance (fst (run lines)) in
  board_full g /\
  Z.lor (state_of g 0) (state_of g 1) = 511 /\
  popcount9 (state_of g 0) = 5 /\
  popcount9 (state_of g 1) = 4 /\
  playerCount g = 1.
Proof.
  destruct (run_invariant alternating alternating_kept lines alternating_init)
    as (w' & r & Hrun & Hend).
  rewrite Hrun. cbn [fst snd]. intros ->.
  destruct Hend as [(_ & Hrest & Halt & Hnine) | [(Hr & _) | (Hr & _)]];
    try discriminate Hr.
  destruct Halt as (Hp & H0 & H1). rewrite Hnine in Hp, H0, H1.
  change ((9 + 1) / 2) with 5 in H0. change (9 / 2) with 4 in H1.
  change (9 mod 2) with 1 in Hp.
  destruct Hrest as (_ & N0 & N1 & Hdis & _).
  assert (Hfull : board_full (instance w')).
  { intros i Hi.
    apply (full_of_nine _ _ Hdis); [rewrite H0, H1; reflexivity | exact Hi]. }
  split; [exact Hfull|]. split; [|split; [exact H0 | split; [exact H1 | exact Hp]]].
  apply Z.bits_inj'. intros i Hi. rewrite Z.lor_spec.
  change 511 with (Z.ones 9).
  destruct (Z.le_gt_cases i 8) as [Hle | Hgt].
  - rewrite Z.ones_spec_low by lia.
    destruct (Hfull i ltac:(lia)) as [-> | ->]; [reflexivity | apply orb_true_r].
  - rewrite Z.ones_spec_high by lia.
    rewrite !nine_bit_high by (assumption || lia). reflexivity.
Qed.

Lemma draw_fills_board_witness :
  Z.lor (state_of (instance (fst (run ["X"; "O"; "0"; "1"; "2"; "4"; "3"; "5"; "7"; "6"; "8"]))) 0)
        (state_of (instance (fst (run ["X"; "O"; "0"; "1"; "2"; "4"; "3"; "5"; "7"; "6"; "8"]))) 1)
  = 511.
Proof.
  destruct (draw_fills_board ["X"; "O"; "0"; "1"; "2"; "4"; "3"; "5"; "7"; "6"; "8"])
    as (_ & Hfull & _).
  - vm_compute. reflexivity.
  - exact Hfull.
Defined.

(** ** The singleton *)

Lemma Game_Ops_calls_again (n : nat) :
  forall (o : option Game_Ops) (out : list event),
    Game_Ops_calls n {| cls_instance := Some 0%nat; objects := [o]; console := out |} =
    ({| cls_instance := Some 0%nat;
        objects := [match n with O => o | S _ => Some init end];
        console := out ++ replicate n (Print msg_exists) |},
     replicate n 0%nat).
Proof.
  induction n as [|n IH]; intros o out.
  - cbn [Game_Ops_calls replicate]. rewrite app_nil_r. reflexivity.
  - cbn [Game_Ops_calls]. unfold Game_Ops_call, Game_Ops_new, Game_Ops_init.
    cbn [cls_instance objects console]. cbn [list_insert insert].
    rewrite IH. cbn [replicate]. rewrite <- app_assoc.
    destruct n; reflexivity.
Qed.

(** X17: the class has one object.  However often [Game_Ops()] is called
    in a fresh runtime, every call returns the same object, no second
    object is ever allocated, and every call after the first prints the
    notice.  Each call runs [__init__] on that object: after it the object
    is in the initial state, so a call made while a game is in progress
    (whatever the state g of the object) resets the game. *)
Theorem Game_Ops_is_singleton (n : nat) (g : Game_Ops) (out : list event) :
  Game_Ops_calls (S n) fresh_runtime =
    ({| cls_instance := Some 0%nat; objects := [Some init];
        console := replicate n (Print msg_exists) |},
     replicate (S n) 0%nat) /\
  Game_Ops_call {| cls_instance := Some 0%nat; objects := [Some g]; console := out |} =
    ({| cls_instance := Some 0%nat; objects := [Some init];
        console := out ++ [Print msg_exists] |}, 0%nat).
Proof.
  split; [|reflexivity].
  cbn [Game_Ops_calls]. unfold Game_Ops_call, Game_Ops_new, Game_Ops_init, fresh_runtime.
  cbn [cls_instance objects console length app]. cbn [list_insert insert].
  rewrite Game_Ops_calls_again. cbn [app replicate].
  destruct n; reflexivity.
Qed.
